(** * lab-env-utils: the environment resolvers of [PartialEnv]

    A shallow embedding of the four resolvers of [src/lib/envUtils.ts]
    ([parseEnvAsString], [parseEnvAsStringOrNull], [parseEnvAsNumber],
    [parseEnvAsNumberOrNull]) and of the two resolvers of the other version
    of the class, kept in [src/unnamed/part_000] ([parseEnvAsString],
    [parseEnvAsNumber]), together with the part of the JavaScript runtime
    they call: [parseInt] without a radix, comparison of Numbers, template
    literals, [Set.prototype.has], property lookup in [process.env] and the
    two logger methods [warn] and [error]. *)

From Stdlib Require Import ZArith Ascii String List Bool Lia.
From Stdlib Require Import DecimalString DecimalPos DecimalFacts.
From Stdlib Require Import Floats.SpecFloat.
From stdpp Require Import base option gmap strings.

Local Open Scope Z_scope.

(** ** JavaScript values *)

(** A Number is an IEEE 754 binary64 value; [spec_float] is the Standard
    Library's specification of them (one NaN, two zeros, two infinities). *)
Definition number : Type := spec_float.

Definition NaN : number := S754_nan.
Definition positive_zero : number := S754_zero false.
Definition negative_zero : number := S754_zero true.

(** The Number value for a mathematical integer (ECMAScript's 𝔽): the
    nearest binary64, ties to even, an infinity when out of range. *)
Definition Number_of_Z (z : Z) : number := binary_normalize 53 1024 z 0 false.

(** [Number.isNaN]. *)
Definition Number_isNaN (v : number) : bool :=
  match v with S754_nan => true | _ => false end.

(** [v == null] for a Number [v]: loose equality of a Number with [null]
    (or [undefined]) is false, for NaN as for every other Number. *)
Definition number_eq_null (v : number) : bool := false.

(** [a < b] and [a > b] on Numbers: false as soon as one side is NaN. *)
Definition number_lt (a b : number) : bool := SFltb a b.
Definition number_gt (a b : number) : bool := SFltb b a.

(** The mathematical value of a Number that holds an integer. *)
Definition Z_of_number (v : number) : option Z :=
  match v with
  | S754_zero _ => Some 0
  | S754_finite s m (Zpos e) => Some (cond_Zopp s (Zpos m * 2 ^ Zpos e))
  | S754_finite s m Z0 => Some (cond_Zopp s (Zpos m))
  | S754_finite s m (Zneg e) =>
      if Zpos m mod 2 ^ Zpos e =? 0
      then Some (cond_Zopp s (Zpos m / 2 ^ Zpos e)) else None
  | _ => None
  end.

(** A value of type [A | null | undefined], for the optional property
    [defaultValue] that the code tests with [!== undefined]. Where the code
    cannot tell [null] from [undefined] ([x == null], [x != null], [x && ...])
    the embedding uses [option], [None] standing for both. *)
Inductive optional (A : Type) : Type :=
  | undefined
  | null
  | value (a : A).
Arguments undefined {A}.
Arguments null {A}.
Arguments value {A} a.

(** [x != null] on such a value. *)
Definition not_nullish {A} (x : optional A) : option A :=
  match x with value a => Some a | _ => None end.

(** ** Strings

    A [string] stands for a JavaScript string whose UTF-16 code units are
    all below 256; each [ascii] is one code unit. *)

Definition code_unit (c : ascii) : Z := Z.of_N (N_of_ascii c).

(** The code units below 256 in ECMAScript's StrWhiteSpaceChar: TAB, LF, VT,
    FF, CR, SP and NBSP. *)
Definition isStrWhiteSpaceChar (c : ascii) : bool :=
  let u := code_unit c in
  ((9 <=? u) && (u <=? 13)) || (u =? 32) || (u =? 160).

(** [TrimString(inputString, start)]. *)
Fixpoint TrimStart (s : string) : string :=
  match s with
  | String c rest => if isStrWhiteSpaceChar c then TrimStart rest else s
  | EmptyString => s
  end.

(** The value of a code unit as a digit: ['0'..'9'] are 0 to 9, and
    ['a'..'z'], ['A'..'Z'] are 10 to 35. *)
Definition digit_value (c : ascii) : option Z :=
  let u := code_unit c in
  if (48 <=? u) && (u <=? 57) then Some (u - 48)
  else if (97 <=? u) && (u <=? 122) then Some (u - 87)
  else if (65 <=? u) && (u <=? 90) then Some (u - 55)
  else None.

(** A radix-[R] digit. *)
Definition radix_digit (R : Z) (c : ascii) : option Z :=
  match digit_value c with
  | Some d => if d <? R then Some d else None
  | None => None
  end.

(** The digits of [s] before its first code unit that is not a radix-[R]
    digit (all of [s] when there is none). *)
Fixpoint leading_digits (R : Z) (s : string) : list Z :=
  match s with
  | String c rest =>
      match radix_digit R c with
      | Some d => d :: leading_digits R rest
      | None => []
      end
  | EmptyString => []
  end.

(** The integer that a list of digits denotes in radix [R]. *)
Definition radix_value (R : Z) (ds : list Z) : Z :=
  fold_left (fun acc d => acc * R + d) ds 0.

(** [s] begins with the code units of [p]. *)
Fixpoint starts_with (p s : string) : bool :=
  match p, s with
  | EmptyString, _ => true
  | String a p', String b s' => Ascii.eqb a b && starts_with p' s'
  | String _ _, EmptyString => false
  end.

(** [s] without its first [n] code units. *)
Fixpoint drop_code_units (n : nat) (s : string) : string :=
  match n, s with
  | S n', String _ rest => drop_code_units n' rest
  | _, _ => s
  end.

(** [parseInt(string)], called with no radix (ECMAScript, parseInt, with R
    undefined): leading white space is dropped, then one sign, then a
    ["0x"] or ["0X"] prefix, which selects radix 16 (radix 10 otherwise);
    the digits up to the first code unit that is not a digit of the radix
    are read; no digit at all gives NaN. The standard allows an
    implementation to replace the decimal digits after the 20th by zeros;
    this definition reads them all. *)
Definition parseInt (inputString : string) : number :=
  let S1 := TrimStart inputString in
  let sign := if starts_with "-" S1 then -1 else 1 in
  let S2 := if starts_with "+" S1 || starts_with "-" S1
            then drop_code_units 1 S1 else S1 in
  let stripPrefix := starts_with "0x" S2 || starts_with "0X" S2 in
  let R := if stripPrefix then 16 else 10 in
  let S3 := if stripPrefix then drop_code_units 2 S2 else S2 in
  let digits := leading_digits R S3 in
  match digits with
  | [] => NaN
  | _ =>
      let mathInt := radix_value R digits in
      if mathInt =? 0
      then (if sign =? -1 then negative_zero else positive_zero)
      else Number_of_Z (sign * mathInt)
  end.

(** [String.prototype.includes]. *)
Fixpoint includes (s sub : string) : bool :=
  starts_with sub s ||
  match s with
  | String _ rest => includes rest sub
  | EmptyString => false
  end.

(** A template literal's substitution [${x}] for [x : T | null] with [T] a
    string type, and for [x : string | null]. *)
Definition String_of_nullable (x : option string) : string :=
  match x with Some s => s | None => "null" end.

(** [Number::toString] is part of the runtime and is not modelled: the
    resolvers only paste its result into messages. *)
Class NumberToString := Number_toString : number -> string.

(** ** Effects: the logger and exceptions

    [this.logger] is the one winston logger made by the constructor. A
    call of [warn] or [error] on it is recorded as an entry appended to the
    log, whatever the level the logger was created with. [throw new
    Error(message)] ends the call with that error. *)

Inductive Level : Type := warn | error.

Record LogEntry : Type := { level : Level; message : string }.

Inductive Error : Type := new_Error (message : string).

Definition Error_message (e : Error) : string :=
  match e with new_Error m => m end.

(** A call returns or throws. The resolvers return what they read in
    [process.env] under a cast to the string type of their signature, and
    what they read can be an object that [process.env] inherits (see
    below): [Return_object] is the return of that object, given by the name
    of the property that holds it, from a call whose signature declares
    the type [A]. *)
Inductive completion (A : Type) : Type :=
  | Return (a : A)
  | Throw (e : Error)
  | Return_object (property : string).
Arguments Return {A} a.
Arguments Throw {A} e.
Arguments Return_object {A} property.

Definition Eff (A : Type) : Type := list LogEntry -> completion A * list LogEntry.

Definition ret {A} (a : A) : Eff A := fun log => (Return a, log).

Definition throw {A} (e : Error) : Eff A := fun log => (Throw e, log).

(** The callers of a resolver are [parseEnvAsString] and
    [parseEnvAsNumber], which return a value that is not [null] as they
    got it, and the constructor, which resolves five names that
    [process.env] does not inherit. So [bind] passes a returned object
    on. *)
Definition bind {A B} (c : Eff A) (k : A -> Eff B) : Eff B :=
  fun log =>
    match c log with
    | (Return a, log') => k a log'
    | (Throw e, log') => (Throw e, log')
    | (Return_object o, log') => (Return_object o, log')
    end.

Definition logger_warn (m : string) : Eff unit :=
  fun log => (Return tt, log ++ [{| level := warn; message := m |}]).

Definition logger_error (m : string) : Eff unit :=
  fun log => (Return tt, log ++ [{| level := error; message := m |}]).

Declare Scope eff_scope.
Delimit Scope eff_scope with eff.
Notation "x <~ c ;; k" := (bind c (fun x => k))
  (at level 100, c at next level, right associativity) : eff_scope.
Notation "c ;; k" := (bind c (fun _ => k))
  (at level 100, right associativity) : eff_scope.

(** The outcome of a call on a logger that has recorded nothing yet, and
    what the call emitted. *)
Definition run {A} (c : Eff A) : completion A * list LogEntry := c [].
Definition outcome {A} (c : Eff A) : completion A := fst (run c).
Definition emitted {A} (c : Eff A) : list LogEntry := snd (run c).

(** ** The options of the resolvers *)

Module StringOptions.
(** [{ defaultValue?: T | null, allowed?: Set<T> }] *)
Record t : Type := Build {
  defaultValue : optional string;
  allowed : option (gset string)
}.
End StringOptions.

Module NumberOptions.
(** [{ defaultValue?: number | null, max?: number, min?: number }] *)
Record t : Type := Build {
  defaultValue : optional number;
  max : option number;
  min : option number
}.
End NumberOptions.

(** ** Reading [process.env]

    The variables that are set, with their values, are a [gmap string
    string]. The expression [process.env[envVarName]] gives the value of a
    variable that is set. For a name that is not set it gives what the
    object [process.env] inherits from [Object.prototype] under that name:
    a function, or the prototype itself for [__proto__]. For any other
    name it gives [undefined], here [None]. *)

(** The properties of [Object.prototype], each with the string that
    [ToString] makes of its value, as V8 prints it. *)
Definition Object_prototype : list (string * string) :=
  [ ("constructor", "function Object() { [native code] }");
    ("__defineGetter__", "function __defineGetter__() { [native code] }");
    ("__defineSetter__", "function __defineSetter__() { [native code] }");
    ("hasOwnProperty", "function hasOwnProperty() { [native code] }");
    ("__lookupGetter__", "function __lookupGetter__() { [native code] }");
    ("__lookupSetter__", "function __lookupSetter__() { [native code] }");
    ("isPrototypeOf", "function isPrototypeOf() { [native code] }");
    ("propertyIsEnumerable", "function propertyIsEnumerable() { [native code] }");
    ("toString", "function toString() { [native code] }");
    ("valueOf", "function valueOf() { [native code] }");
    ("__proto__", "[object Object]");
    ("toLocaleString", "function toLocaleString() { [native code] }") ].

(** The string of the value that [process.env] inherits under [name]. *)
Definition inherits (name : string) : option string :=
  snd <$> List.find (fun property => String.eqb (fst property) name) Object_prototype.

(** What [process.env[name]] evaluates to, when it is not [undefined]:
    the value of a variable, or an inherited object, kept as the name of
    the property and the string that [ToString] makes of the object. *)
Inductive property : Type :=
  | variable (valueStr : string)
  | inherited (name text : string).

Definition process_env (env : gmap string string) (name : string) : option property :=
  match env !! name with
  | Some valueStr => Some (variable valueStr)
  | None => inherited name <$> inherits name
  end.

(** [ToString], which [parseInt] and a template literal apply to their
    argument. *)
Definition ToString (valueStr : property) : string :=
  match valueStr with
  | variable valueStr => valueStr
  | inherited _ text => text
  end.

(** [options.allowed.has(valueStr)]: the set holds strings. *)
Definition Set_has (s : gset string) (valueStr : property) : bool :=
  match valueStr with
  | variable valueStr => bool_decide (valueStr ∈ s)
  | inherited _ _ => false
  end.

(** [return valueStr], from a call that declares a result of type [A],
    into which [typed] takes a string. *)
Definition return_read {A} (typed : string → A) (valueStr : property) : Eff A :=
  fun log =>
    match valueStr with
    | variable valueStr => (Return (typed valueStr), log)
    | inherited name _ => (Return_object name, log)
    end.

(** An argument [envVarName] is an [option string] ([None] for [null] or
    [undefined], which the resolvers test first), and an optional argument
    [options] is an [option] too. *)

(** ** src/lib/envUtils.ts *)

Module EnvUtils.
Section Resolvers.
Context {toStr : NumberToString}.
Variable env : gmap string string.
Local Open Scope eff_scope.

(** [options != null && options.defaultValue !== undefined], with the
    default when it holds. *)
Definition string_default (options : option StringOptions.t) : option (option string) :=
  match options with
  | Some o =>
      match StringOptions.defaultValue o with
      | undefined => None
      | null => Some None
      | value d => Some (Some d)
      end
  | None => None
  end.

Definition number_default (options : option NumberOptions.t) : option (option number) :=
  match options with
  | Some o =>
      match NumberOptions.defaultValue o with
      | undefined => None
      | null => Some None
      | value d => Some (Some d)
      end
  | None => None
  end.

(** [${options.defaultValue}] for a [number | null]. *)
Definition String_of_nullable_number (x : option number) : string :=
  match x with Some n => Number_toString n | None => "null" end.

Definition parseEnvAsStringOrNull (envVarName : option string)
    (options : option StringOptions.t) : Eff (option string) :=
  match envVarName with
  | None => throw (new_Error "envVarName is null")
  | Some envVarName =>
      let valueStr := process_env env envVarName in
      match valueStr, string_default options with
      | None, Some defaultValue =>
          logger_warn (envVarName +:+ " not defined, using default "
                       +:+ String_of_nullable defaultValue) ;;
          ret defaultValue
      | None, None =>
          throw (new_Error (envVarName +:+ " must be defined"))
      | Some valueStr, _ =>
          match options ≫= StringOptions.allowed with
          | Some allowed =>
              if negb (Set_has allowed valueStr)
              then logger_error ("unsupported NODE_ENV value " +:+ ToString valueStr) ;;
                   throw (new_Error ("unsupported NODE_ENV value " +:+ ToString valueStr))
              else return_read Some valueStr
          | None => return_read Some valueStr
          end
      end
  end.

Definition parseEnvAsString (envVarName : option string)
    (options : option StringOptions.t) : Eff string :=
  parsed <~ parseEnvAsStringOrNull envVarName options ;;
  match parsed with
  | None => throw (new_Error (String_of_nullable envVarName +:+ " must be defined"))
  | Some parsed => ret parsed
  end.

Definition parseEnvAsNumberOrNull (envVarName : option string)
    (options : option NumberOptions.t) : Eff (option number) :=
  match envVarName with
  | None => throw (new_Error "envVarName is null")
  | Some envVarName =>
      let valueStr := process_env env envVarName in
      match valueStr, number_default options with
      | None, Some defaultValue =>
          logger_warn (envVarName +:+ " not defined, using default "
                       +:+ String_of_nullable_number defaultValue) ;;
          ret defaultValue
      | None, None =>
          throw (new_Error (envVarName +:+ " must be defined"))
      | Some valueStr, _ =>
          let value := parseInt (ToString valueStr) in
          if number_eq_null value || Number_isNaN value
          then throw (new_Error (envVarName +:+ " value " +:+ ToString valueStr
                                 +:+ " is not a number"))
          else
            match options ≫= NumberOptions.min with
            | Some min =>
                if number_lt value min
                then throw (new_Error (envVarName +:+ " value " +:+ ToString valueStr
                                       +:+ " must be at least "
                                       +:+ Number_toString min))
                else ret tt
            | None => ret tt
            end ;;
            match options ≫= NumberOptions.max with
            | Some max =>
                if number_gt value max
                then throw (new_Error (envVarName +:+ " value " +:+ ToString valueStr
                                       +:+ " must be no greater than "
                                       +:+ Number_toString max))
                else ret tt
            | None => ret tt
            end ;;
            ret (Some value)
      end
  end.

Definition parseEnvAsNumber (envVarName : option string)
    (options : option NumberOptions.t) : Eff number :=
  parsed <~ parseEnvAsNumberOrNull envVarName options ;;
  match parsed with
  | None => throw (new_Error (String_of_nullable envVarName +:+ " must be defined"))
  | Some parsed => ret parsed
  end.

End Resolvers.
End EnvUtils.

(** ** src/unnamed/part_000: the other version of the class *)

Module Part000.
Section Resolvers.
Context {toStr : NumberToString}.
Variable env : gmap string string.
Local Open Scope eff_scope.

Definition parseEnvAsString (envVarName : option string)
    (options : option StringOptions.t) : Eff string :=
  match envVarName with
  | None => throw (new_Error "envVarName is null")
  | Some envVarName =>
      let valueStr := process_env env envVarName in
      match valueStr, options ≫= (fun o => not_nullish (StringOptions.defaultValue o)) with
      | None, Some defaultValue =>
          logger_warn (envVarName +:+ " not defined, using default "
                       +:+ defaultValue) ;;
          ret defaultValue
      | None, None =>
          throw (new_Error (envVarName +:+ " must be defined"))
      | Some valueStr, _ =>
          match options ≫= StringOptions.allowed with
          | Some allowed =>
              if negb (Set_has allowed valueStr)
              then logger_error ("unsupported NODE_ENV value " +:+ ToString valueStr) ;;
                   throw (new_Error ("unsupported NODE_ENV value " +:+ ToString valueStr))
              else return_read id valueStr
          | None => return_read id valueStr
          end
      end
  end.

(** [options] is not optional here. *)
Definition handleDefault (envVarName : string) (options : NumberOptions.t) : Eff number :=
  match not_nullish (NumberOptions.defaultValue options) with
  | Some defaultValue =>
      logger_warn (envVarName +:+ " not defined, using default "
                   +:+ Number_toString defaultValue) ;;
      ret defaultValue
  | None => throw (new_Error (envVarName +:+ " must be defined"))
  end.

Definition parseEnvAsNumber (envVarName : option string)
    (options : NumberOptions.t) : Eff number :=
  match envVarName with
  | None => throw (new_Error "envVarName is null")
  | Some envVarName =>
      let valueStr := process_env env envVarName in
      match valueStr with
      | None => handleDefault envVarName options
      | Some valueStr =>
          let value := parseInt (ToString valueStr) in
          if number_eq_null value
          then throw (new_Error (envVarName +:+ " value " +:+ ToString valueStr
                                 +:+ " is not a number"))
          else
            match NumberOptions.min options with
            | Some min =>
                if number_lt value min
                then throw (new_Error (envVarName +:+ " value " +:+ ToString valueStr
                                       +:+ " must be at least "
                                       +:+ Number_toString min))
                else ret tt
            | None => ret tt
            end ;;
            match NumberOptions.max options with
            | Some max =>
                if number_gt value max
                then throw (new_Error (envVarName +:+ " value " +:+ ToString valueStr
                                       +:+ " must be no greater than "
                                       +:+ Number_toString max))
                else ret tt
            | None => ret tt
            end ;;
            ret value
      end
  end.

End Resolvers.
End Part000.

(** ** The specification's vocabulary

    The specification names the errors and the notifications by kind. In
    the code an error is an [Error] with a message and a notification is a
    call of the logger; the kinds below are those messages. *)

Section Vocabulary.
Context {toStr : NumberToString}.

Definition MissingRequiredVariable (name : string) : Error :=
  new_Error (name +:+ " must be defined").

(** The message of this kind names [NODE_ENV], whatever the variable. *)
Definition InvalidValue (rawValue : string) : Error :=
  new_Error ("unsupported NODE_ENV value " +:+ rawValue).

Definition NotANumber (name rawValue : string) : Error :=
  new_Error (name +:+ " value " +:+ rawValue +:+ " is not a number").

Definition BelowMinimum (name rawValue : string) (minimum : number) : Error :=
  new_Error (name +:+ " value " +:+ rawValue +:+ " must be at least "
             +:+ Number_toString minimum).

Definition AboveMaximum (name rawValue : string) (maximum : number) : Error :=
  new_Error (name +:+ " value " +:+ rawValue +:+ " must be no greater than "
             +:+ Number_toString maximum).

(** [shown] is the default as the template literal prints it. *)
Definition DEFAULT_USED (name shown : string) : LogEntry :=
  {| level := warn; message := name +:+ " not defined, using default " +:+ shown |}.

Definition UNSUPPORTED_VALUE (rawValue : string) : LogEntry :=
  {| level := error; message := "unsupported NODE_ENV value " +:+ rawValue |}.



(** The parsed value is below the configured minimum, above the
    configured maximum. *)
Definition below_minimum (options : option NumberOptions.t) (v : number) : option number :=
  match options ≫= NumberOptions.min with
  | Some minimum => if number_lt v minimum then Some minimum else None
  | None => None
  end.

Definition above_maximum (options : option NumberOptions.t) (v : number) : option number :=
  match options ≫= NumberOptions.max with
  | Some maximum => if number_gt v maximum then Some maximum else None
  | None => None
  end.

(** An error identifies a variable when its message contains the name. *)
Definition identifies (e : Error) (name : string) : bool :=
  includes (Error_message e) name.
End Vocabulary.

(** ** Leading-prefix parsing, as the specification words it

    The value of the longest leading run of radix-[R] digits of [s]; [acc]
    is [None] as long as no digit was read. *)
Fixpoint digits_prefix (R : Z) (acc : option Z) (s : string) : option Z :=
  match s with
  | String c rest =>
      match radix_digit R c with
      | Some d => digits_prefix R (Some (default 0 acc * R + d)) rest
      | None => acc
      end
  | EmptyString => acc
  end.

(** A raw value without its leading white space and sign; the flag tells
    whether the sign was a minus. *)
Definition sign_and_body (raw : string) : bool * string :=
  match TrimStart raw with
  | String "-" body => (true, body)
  | String "+" body => (false, body)
  | body => (false, body)
  end.

(** What follows a ["0x"] or ["0X"] prefix, if there is one. *)
Definition hex_body (body : string) : option string :=
  match body with
  | String "0" (String "x" rest) => Some rest
  | String "0" (String "X" rest) => Some rest
  | _ => None
  end.

(** The Number for a sign and a magnitude read from a string; no magnitude
    gives NaN, and a zero keeps the sign. *)
Definition Number_of_prefix (negative : bool) (magnitude : option Z) : number :=
  match magnitude with
  | None => NaN
  | Some 0 => S754_zero negative
  | Some m => Number_of_Z (if negative then - m else m)
  end.

(** The specification's parse: a base-10 integer, read from the longest
    valid leading numeric substring. *)
Definition leading_base10 (raw : string) : number :=
  let '(negative, body) := sign_and_body raw in
  Number_of_prefix negative (digits_prefix 10 None body).

(** The outcome the specification gives to the resolution of a present
    numeric variable on which no bound is configured. *)
Definition base10_resolution (name raw : string) : completion number * list LogEntry :=
  match leading_base10 raw with
  | S754_nan => (Throw (NotANumber name raw), [])
  | v => (Return v, [])
  end.

(** ** Printing integers, to run the resolvers on examples

    [Number::toString] on NaN, on the infinities and on the Numbers that
    hold an integer below 2^53 in magnitude, which it prints in decimal
    with all its digits. On the other Numbers this function gives the
    empty string. *)
Definition integer_toString : NumberToString := fun v =>
  match v with
  | S754_nan => "NaN"
  | S754_infinity false => "Infinity"
  | S754_infinity true => "-Infinity"
  | _ =>
      match Z_of_number v with
      | Some z =>
          if Z.abs z <? 2 ^ 53 then NilZero.string_of_int (Z.to_int z) else ""
      | None => ""
      end
  end.

Definition VALID_NODE_ENV : gset string := {[ "development"; "production"; "test" ]}.

(** ** The class [PartialEnv]

    The constructor makes the logger, then resolves the five fields in
    the order of the source; the first resolution that throws ends it. Both
    files have the same constructor text, each over its own resolvers. An
    object is the record of its private fields, with [logger_level], the
    level the logger was created with, standing for the field [logger];
    the second component of a construction is what that logger was sent. *)

Module Defaults.
(** [{port: number, host: string, fromEmail: string }] *)
Record t : Type := Build {
  port : number;
  host : string;
  fromEmail : string
}.
End Defaults.

Module PartialEnv.
Record t : Type := Build {
  logger_level : string;
  _nodeEnv : string;
  _port : number;
  _sessionSecret : string;
  _serverHost : string;
  _fromEmail : string
}.

(** The getters. *)
Definition nodeEnv (this : t) : string := _nodeEnv this.
Definition port (this : t) : number := _port this.
Definition sessionSecret (this : t) : string := _sessionSecret this.
Definition serverHost (this : t) : string := _serverHost this.
Definition fromEmail (this : t) : string := _fromEmail this.
End PartialEnv.

(** [loggerLevel || "debug"]: an omitted level and the empty string are
    falsy. *)
Definition loggerLevelNotNull (loggerLevel : option string) : string :=
  match loggerLevel with
  | Some EmptyString => "debug"
  | Some l => l
  | None => "debug"
  end.

Module EnvUtilsClass.
Section Constructor.
Context {toStr : NumberToString}.
Variable env : gmap string string.
Local Open Scope eff_scope.

Definition constructor (defaults : Defaults.t) (loggerLevel : option string)
    : completion PartialEnv.t * list LogEntry :=
  let loggerLevelNotNull := loggerLevelNotNull loggerLevel in
  run (
    _sessionSecret <~ EnvUtils.parseEnvAsString env (Some "SESSION_SECRET") None ;;
    _nodeEnv <~ EnvUtils.parseEnvAsString env (Some "NODE_ENV")
                  (Some {| StringOptions.defaultValue := undefined;
                           StringOptions.allowed := Some VALID_NODE_ENV |}) ;;
    _port <~ EnvUtils.parseEnvAsNumber env (Some "PORT")
               (Some {| NumberOptions.defaultValue := value (Defaults.port defaults);
                        NumberOptions.max := None; NumberOptions.min := None |}) ;;
    _serverHost <~ EnvUtils.parseEnvAsString env (Some "SERVER_HOST")
                     (Some {| StringOptions.defaultValue := value (Defaults.host defaults);
                              StringOptions.allowed := None |}) ;;
    _fromEmail <~ EnvUtils.parseEnvAsString env (Some "FROM_EMAIL")
                    (Some {| StringOptions.defaultValue := value (Defaults.fromEmail defaults);
                             StringOptions.allowed := None |}) ;;
    ret {| PartialEnv.logger_level := loggerLevelNotNull;
           PartialEnv._nodeEnv := _nodeEnv;
           PartialEnv._port := _port;
           PartialEnv._sessionSecret := _sessionSecret;
           PartialEnv._serverHost := _serverHost;
           PartialEnv._fromEmail := _fromEmail |}).

End Constructor.
End EnvUtilsClass.

Module Part000Class.
Section Constructor.
Context {toStr : NumberToString}.
Variable env : gmap string string.
Local Open Scope eff_scope.

Definition constructor (defaults : Defaults.t) (loggerLevel : option string)
    : completion PartialEnv.t * list LogEntry :=
  let loggerLevelNotNull := loggerLevelNotNull loggerLevel in
  run (
    _sessionSecret <~ Part000.parseEnvAsString env (Some "SESSION_SECRET") None ;;
    _nodeEnv <~ Part000.parseEnvAsString env (Some "NODE_ENV")
                  (Some {| StringOptions.defaultValue := undefined;
                           StringOptions.allowed := Some VALID_NODE_ENV |}) ;;
    _port <~ Part000.parseEnvAsNumber env (Some "PORT")
               {| NumberOptions.defaultValue := value (Defaults.port defaults);
                  NumberOptions.max := None; NumberOptions.min := None |} ;;
    _serverHost <~ Part000.parseEnvAsString env (Some "SERVER_HOST")
                     (Some {| StringOptions.defaultValue := value (Defaults.host defaults);
                              StringOptions.allowed := None |}) ;;
    _fromEmail <~ Part000.parseEnvAsString env (Some "FROM_EMAIL")
                    (Some {| StringOptions.defaultValue := value (Defaults.fromEmail defaults);
                             StringOptions.allowed := None |}) ;;
    ret {| PartialEnv.logger_level := loggerLevelNotNull;
           PartialEnv._nodeEnv := _nodeEnv;
           PartialEnv._port := _port;
           PartialEnv._sessionSecret := _sessionSecret;
           PartialEnv._serverHost := _serverHost;
           PartialEnv._fromEmail := _fromEmail |}).

End Constructor.
End Part000Class.

(** The entries a construction emits when all goes well: one
    [DEFAULT_USED] for each of [PORT], [SERVER_HOST] and [FROM_EMAIL] that
    is not set, in that order. *)
Definition default_warnings `{NumberToString} (env : gmap string string)
    (defaults : Defaults.t) : list LogEntry :=
  match env !! "PORT" with
  | Some _ => []
  | None => [DEFAULT_USED "PORT" (Number_toString (Defaults.port defaults))]
  end
  ++ match env !! "SERVER_HOST" with
     | Some _ => []
     | None => [DEFAULT_USED "SERVER_HOST" (Defaults.host defaults)]
     end
  ++ match env !! "FROM_EMAIL" with
     | Some _ => []
     | None => [DEFAULT_USED "FROM_EMAIL" (Defaults.fromEmail defaults)]
     end.

(** The decimal numeral of an integer, with all its digits. *)
Definition decimal (z : Z) : string := NilZero.string_of_int (Z.to_int z).

(** All the code units of [s] are white space. *)
Fixpoint all_white_space (s : string) : bool :=
  match s with
  | String c rest => isStrWhiteSpaceChar c && all_white_space rest
  | EmptyString => true
  end.

(** What a resolver may send the logger in one call on the variable
    [name]: nothing; or one [DEFAULT_USED] entry, the variable being
    absent; or, for a string resolver, one [UNSUPPORTED_VALUE] entry
    followed by the error [InvalidValue], both with the string of what
    was read under the name. *)
Definition string_resolver_emits {A} (env : gmap string string) (name : string)
    (r : completion A * list LogEntry) : Prop :=
  snd r = []
  ∨ (env !! name = None ∧ ∃ shown, snd r = [DEFAULT_USED name shown])
  ∨ (∃ valueStr, process_env env name = Some valueStr
       ∧ r = (Throw (InvalidValue (ToString valueStr)),
              [UNSUPPORTED_VALUE (ToString valueStr)])).

Definition number_resolver_emits {A} (env : gmap string string) (name : string)
    (r : completion A * list LogEntry) : Prop :=
  snd r = []
  ∨ (env !! name = None ∧ ∃ shown, snd r = [DEFAULT_USED name shown]).

(** Environments and defaults to run the constructors on. *)
Definition production_env : gmap string string :=
  {[ "SESSION_SECRET" := "abc123"; "NODE_ENV" := "production"; "PORT" := "3000" ]}.

Definition unparsable_port_env : gmap string string :=
  {[ "SESSION_SECRET" := "abc123"; "NODE_ENV" := "test"; "PORT" := "abc" ]}.

Definition staging_env : gmap string string :=
  {[ "SESSION_SECRET" := "abc123"; "NODE_ENV" := "staging"; "PORT" := "abc" ]}.

Definition local_defaults : Defaults.t :=
  {| Defaults.port := Number_of_Z 8080;
     Defaults.host := "localhost";
     Defaults.fromEmail := "noreply@example.org" |}.

(** * Properties *)

(** ** Strings *)

Lemma starts_with_append (p s : string) : starts_with p (p +:+ s) = true.
Proof.
  induction p as [|c p IH]; simpl; [reflexivity |].
  rewrite Ascii.eqb_refl. exact IH.
Qed.

Lemma includes_starts_with (s sub : string) :
  starts_with sub s = true → includes s sub = true.
Proof. destruct s; simpl; intros ->; reflexivity. Qed.

Lemma includes_prefix (p s : string) : includes (p +:+ s) p = true.
Proof. apply includes_starts_with, starts_with_append. Qed.

(** ** Numbers *)

(** Rounding keeps a mantissa that is not negative so. *)
Lemma shr_1_nonneg (mrs : shr_record) : 0 <= shr_m mrs → 0 <= shr_m (shr_1 mrs).
Proof.
  destruct mrs as [m r s]; simpl.
  destruct m as [|[p|p|]|[p|p|]]; simpl; lia.
Qed.

Lemma iter_pos_invariant {A} (P : A → Prop) (f : A → A) :
  (∀ x, P x → P (f x)) → ∀ p x, P x → P (SpecFloat.iter_pos f p x).
Proof.
  intros Hf p. induction p as [p IH|p IH|]; intros x Hx; simpl; auto.
Qed.

Lemma shr_fexp_nonneg prec emax m e l :
  0 <= m → 0 <= shr_m (fst (shr_fexp prec emax m e l)).
Proof.
  intros Hm. unfold shr_fexp, shr.
  assert (Hrec : 0 <= shr_m (shr_record_of_loc m l)).
  { destruct l as [|[]]; simpl; exact Hm. }
  destruct (fexp prec emax (Zdigits2 m + e) - e) as [|p|p]; simpl; auto.
  apply (iter_pos_invariant (fun mrs => 0 <= shr_m mrs)); auto using shr_1_nonneg.
Qed.

Lemma round_nearest_even_nonneg m l : 0 <= m → 0 <= round_nearest_even m l.
Proof.
  intros Hm. unfold round_nearest_even.
  destruct l as [|[]]; try destruct (Z.even m); lia.
Qed.

Lemma binary_round_aux_not_nan prec emax sx m e l :
  0 <= m → binary_round_aux prec emax sx m e l ≠ S754_nan.
Proof.
  intros Hm. unfold binary_round_aux.
  pose proof (shr_fexp_nonneg prec emax m e l Hm) as H1.
  destruct (shr_fexp prec emax m e l) as [mrs' e']. simpl in H1.
  pose proof (shr_fexp_nonneg prec emax _ e' loc_Exact
                (round_nearest_even_nonneg _ (loc_of_shr_record mrs') H1)) as H2.
  destruct (shr_fexp prec emax _ e' loc_Exact) as [mrs'' e'']. simpl in H2.
  destruct (shr_m mrs'') as [|p|p]; [discriminate | | lia].
  destruct (e'' <=? emax - prec); discriminate.
Qed.

(** The Number for an integer is never NaN. *)
Lemma Number_of_Z_not_NaN (z : Z) : Number_of_Z z ≠ NaN.
Proof.
  unfold Number_of_Z, binary_normalize, binary_round.
  destruct z as [|p|p]; [discriminate | |];
    destruct (shl_align _ _ _) as [mz ez];
    apply binary_round_aux_not_nan; lia.
Qed.

Lemma digits2_pos_iter_xO (p k : positive) :
  digits2_pos (Pos.iter xO p k) = (digits2_pos p + k)%positive.
Proof.
  induction k as [|k IH] using Pos.peano_ind.
  - simpl. lia.
  - rewrite Pos.iter_succ. simpl. rewrite IH. lia.
Qed.

Lemma Zpos_iter_xO (p k : positive) :
  Zpos (Pos.iter xO p k) = Zpos p * 2 ^ Zpos k.
Proof.
  induction k as [|k IH] using Pos.peano_ind.
  - simpl. lia.
  - rewrite Pos.iter_succ, Pos2Z.inj_succ, Z.pow_succ_r by lia.
    change (Zpos (Pos.iter xO p k)~0) with (2 * Zpos (Pos.iter xO p k)).
    rewrite IH. lia.
Qed.

Lemma digits2_pos_lower (p : positive) : 2 ^ (Zpos (digits2_pos p) - 1) <= Zpos p.
Proof.
  induction p as [p IH|p IH|]; simpl digits2_pos.
  - rewrite Pos2Z.inj_succ.
    replace (Z.succ (Zpos (digits2_pos p)) - 1)
      with (Z.succ (Zpos (digits2_pos p) - 1)) by lia.
    rewrite Z.pow_succ_r by lia. lia.
  - rewrite Pos2Z.inj_succ.
    replace (Z.succ (Zpos (digits2_pos p)) - 1)
      with (Z.succ (Zpos (digits2_pos p) - 1)) by lia.
    rewrite Z.pow_succ_r by lia. lia.
  - simpl. lia.
Qed.

Lemma digits2_pos_le_53 (p : positive) : Zpos p < 2 ^ 53 → Zpos (digits2_pos p) <= 53.
Proof.
  intros Hp. pose proof (digits2_pos_lower p) as Hl.
  destruct (Z_le_gt_dec (Zpos (digits2_pos p)) 53) as [|Hgt]; [assumption |].
  exfalso.
  assert (2 ^ 53 <= 2 ^ (Zpos (digits2_pos p) - 1)) by (apply Z.pow_le_mono_r; lia).
  lia.
Qed.

Lemma binary_round_aux_exact (s : bool) (m : positive) (e : Z) :
  Zpos (digits2_pos m) = 53 → -1074 <= e <= 971 →
  binary_round_aux 53 1024 s (Zpos m) e loc_Exact = S754_finite s m e.
Proof.
  intros Hd He. unfold binary_round_aux, shr_fexp.
  match goal with |- context [shr _ _ ?n] =>
    assert (Hn : n = 0) by (unfold fexp, emin; simpl Zdigits2; lia); rewrite Hn
  end.
  cbn [shr shr_record_of_loc shr_m loc_of_shr_record round_nearest_even].
  match goal with |- context [shr _ _ ?n] =>
    assert (Hn' : n = 0) by (unfold fexp, emin; simpl Zdigits2; lia); rewrite Hn'
  end.
  cbn [shr shr_record_of_loc shr_m].
  destruct (Z.leb_spec e (1024 - 53)) as [_|]; [reflexivity | lia].
Qed.

Lemma binary_round_exact (s : bool) (p : positive) :
  Zpos p < 2 ^ 53 →
  Z_of_number (binary_round 53 1024 s p 0) = Some (cond_Zopp s (Zpos p)).
Proof.
  intros Hp. pose proof (digits2_pos_le_53 p Hp) as Hd.
  unfold binary_round, shl_align.
  match goal with |- context [match ?d with Zneg _ => _ | _ => _ end] =>
    assert (Hd' : d = Zpos (digits2_pos p) - 53) by (unfold fexp, emin; lia);
    rewrite Hd'
  end.
  match goal with |- context [(_, fexp ?a ?b ?c)] =>
    assert (Hf : fexp a b c = Zpos (digits2_pos p) - 53) by (unfold fexp, emin; lia);
    rewrite Hf
  end.
  destruct (Zpos (digits2_pos p) - 53) as [|k|k] eqn:Ek; [| lia |].
  - rewrite binary_round_aux_exact by lia. reflexivity.
  - rewrite binary_round_aux_exact.
    + assert (H2 : 2 ^ Zpos k ≠ 0) by (apply Z.pow_nonzero; lia).
      cbn [Z_of_number]. rewrite Zpos_iter_xO, Z.mod_mul by exact H2.
      rewrite Z.eqb_refl, Z.div_mul by exact H2. reflexivity.
    + rewrite digits2_pos_iter_xO. lia.
    + lia.
Qed.

(** The Number for an integer below 2^53 in magnitude holds that integer. *)
Lemma Number_of_Z_exact (z : Z) :
  Z.abs z < 2 ^ 53 → Z_of_number (Number_of_Z z) = Some z.
Proof.
  intros Hz. unfold Number_of_Z, binary_normalize.
  destruct z as [|p|p]; [reflexivity | |].
  - apply (binary_round_exact false). lia.
  - apply (binary_round_exact true). lia.
Qed.

Lemma Number_of_prefix_NaN (negative : bool) (magnitude : option Z) :
  Number_of_prefix negative magnitude = NaN ↔ magnitude = None.
Proof.
  split; [| intros ->; reflexivity].
  destruct magnitude as [[|p|p]|]; simpl; try discriminate; try reflexivity;
    intros E; destruct negative; exfalso; revert E; apply Number_of_Z_not_NaN.
Qed.

(** ** parseInt *)

Lemma digits_prefix_leading_digits (R : Z) (s : string) (acc : option Z) :
  digits_prefix R acc s
  = match leading_digits R s with
    | [] => acc
    | ds => Some (fold_left (fun a d => a * R + d) ds (default 0 acc))
    end.
Proof.
  revert acc. induction s as [|c rest IH]; intros acc; simpl; [reflexivity |].
  destruct (radix_digit R c) as [d|]; [| reflexivity].
  rewrite IH. simpl. destruct (leading_digits R rest); reflexivity.
Qed.

Lemma digit_value_nonneg (c : ascii) (d : Z) : digit_value c = Some d → 0 <= d.
Proof.
  unfold digit_value.
  repeat (case_match; simplify_eq); intros; simplify_eq;
    repeat match goal with
           | H : _ && _ = true |- _ => apply andb_true_iff in H; destruct H
           | H : (_ <=? _) = true |- _ => apply Z.leb_le in H
           end; lia.
Qed.

Lemma digits_prefix_nonneg (R : Z) (s : string) (acc : option Z) (m : Z) :
  0 <= R → 0 <= default 0 acc → digits_prefix R acc s = Some m → 0 <= m.
Proof.
  intros HR. revert acc. induction s as [|c rest IH]; intros acc Hacc; simpl.
  - intros ->. exact Hacc.
  - unfold radix_digit. destruct (digit_value c) as [d|] eqn:Ed.
    + destruct (d <? R).
      * apply IH. simpl. apply digit_value_nonneg in Ed. nia.
      * intros ->. exact Hacc.
    + intros ->. exact Hacc.
Qed.

Lemma sign_and_body_starts_with (raw : string) :
  sign_and_body raw
  = let S1 := TrimStart raw in
    (starts_with "-" S1,
     if starts_with "+" S1 || starts_with "-" S1 then drop_code_units 1 S1 else S1).
Proof.
  unfold sign_and_body. cbv zeta.
  destruct (TrimStart raw) as [|c body]; [reflexivity |].
  destruct c as [[] [] [] [] [] [] [] []]; reflexivity.
Qed.

Lemma hex_body_starts_with (s : string) :
  hex_body s
  = if starts_with "0x" s || starts_with "0X" s
    then Some (drop_code_units 2 s) else None.
Proof.
  destruct s as [|a [|b rest]]; [reflexivity | |].
  - destruct a as [[] [] [] [] [] [] [] []]; reflexivity.
  - destruct a as [[] [] [] [] [] [] [] []]; try reflexivity.
    destruct b as [[] [] [] [] [] [] [] []]; reflexivity.
Qed.

(** [parseInt] reads a sign, then hexadecimal digits after a ["0x"] or
    ["0X"] prefix and decimal digits otherwise. *)
Lemma parseInt_prefix (raw : string) :
  parseInt raw
  = let '(negative, body) := sign_and_body raw in
    Number_of_prefix negative
      match hex_body body with
      | Some hex => digits_prefix 16 None hex
      | None => digits_prefix 10 None body
      end.
Proof.
  rewrite sign_and_body_starts_with. unfold parseInt. cbv zeta.
  generalize (TrimStart raw). intros S1.
  generalize (if starts_with "+" S1 || starts_with "-" S1
              then drop_code_units 1 S1 else S1). intros S2.
  rewrite hex_body_starts_with.
  destruct (starts_with "0x" S2 || starts_with "0X" S2);
    rewrite digits_prefix_leading_digits;
    (match goal with |- context [leading_digits ?R ?s] =>
       destruct (leading_digits R s) as [|d ds] eqn:E end; [reflexivity |]);
    unfold radix_value; simpl default;
    (match goal with |- context [fold_left ?f ?l ?a] =>
       generalize (fold_left f l a) end; intros m);
    destruct (starts_with "-" S1); destruct m; reflexivity.
Qed.

Lemma parseInt_leading_base10 (raw : string) :
  hex_body (snd (sign_and_body raw)) = None → parseInt raw = leading_base10 raw.
Proof.
  rewrite parseInt_prefix. unfold leading_base10.
  destruct (sign_and_body raw) as [negative body]. simpl. intros ->. reflexivity.
Qed.

(** ** Reading [process.env] *)

Lemma process_env_variable (env : gmap string string) (name raw : string) :
  env !! name = Some raw → process_env env name = Some (variable raw).
Proof. unfold process_env. intros ->. reflexivity. Qed.

Lemma process_env_undefined (env : gmap string string) (name : string) :
  env !! name = None → inherits name = None → process_env env name = None.
Proof. unfold process_env. intros -> ->. reflexivity. Qed.

Lemma process_env_inherited (env : gmap string string) (name text : string) :
  env !! name = None → inherits name = Some text →
  process_env env name = Some (inherited name text).
Proof. unfold process_env. intros -> ->. reflexivity. Qed.

Lemma process_env_None (env : gmap string string) (name : string) :
  process_env env name = None ↔ env !! name = None ∧ inherits name = None.
Proof.
  unfold process_env. destruct (env !! name), (inherits name); simpl; split;
    first [ intros [? ?]; congruence | intros ?; split; congruence | congruence ].
Qed.

(** Under a name that is not inherited, what is read is the variable. *)
Lemma process_env_own (env : gmap string string) (name : string) :
  inherits name = None → process_env env name = variable <$> env !! name.
Proof. unfold process_env. intros ->. destruct (env !! name); reflexivity. Qed.

(** No inherited object is read as a number: the string of each begins
    with a letter or a bracket. *)
Lemma parseInt_inherits (name text : string) :
  inherits name = Some text → parseInt text = NaN.
Proof.
  unfold inherits. intros Hfind.
  apply fmap_Some in Hfind as ([name' text'] & Hfind & ->).
  apply List.find_some in Hfind as [Hin _].
  unfold Object_prototype in Hin. simpl in Hin.
  repeat (destruct Hin as [[= <- <-]|Hin]; [reflexivity |]).
  contradiction.
Qed.

(** ** The resolvers *)

Ltac eff_unfold :=
  unfold run, outcome, emitted, bind, ret, throw, return_read,
    logger_warn, logger_error in *.

(** The variable is set: [H] gives its value. *)
Ltac present H :=
  rewrite (process_env_variable _ _ _ H); cbn [ToString Set_has].

Section Resolution.
Context {toStr : NumberToString}.
Implicit Types (env : gmap string string) (name raw : string).
Implicit Types (log : list LogEntry).

(** ** Defaults *)





(** Under an inherited name the variable is never taken for absent:
    when it is not set, the inherited object is read. No numeric resolver
    reads it as a number, so those of [src/lib/envUtils.ts] throw
    [NotANumber] and the one of [src/unnamed/part_000] returns NaN; a
    string resolver returns the object, or throws [InvalidValue] when an
    allowed set is configured. Neither a default nor its absence is looked
    at. *)
Lemma inherited_name_is_read env name text :
  env !! name = None →
  inherits name = Some text →
  (∀ options,
     run (EnvUtils.parseEnvAsNumberOrNull env (Some name) options)
       = (Throw (NotANumber name text), [])
     ∧ run (EnvUtils.parseEnvAsNumber env (Some name) options)
       = (Throw (NotANumber name text), []))
  ∧ (∀ options,
     run (Part000.parseEnvAsNumber env (Some name) options) = (Return NaN, []))
  ∧ (∀ d,
     let options := Some {| StringOptions.defaultValue := d;
                            StringOptions.allowed := None |} in
     run (EnvUtils.parseEnvAsStringOrNull env (Some name) options)
       = (Return_object name, [])
     ∧ run (EnvUtils.parseEnvAsString env (Some name) options)
       = (Return_object name, [])
     ∧ run (Part000.parseEnvAsString env (Some name) options)
       = (Return_object name, []))
  ∧ (∀ d (A : gset string),
     let options := Some {| StringOptions.defaultValue := d;
                            StringOptions.allowed := Some A |} in
     run (EnvUtils.parseEnvAsStringOrNull env (Some name) options)
       = (Throw (InvalidValue text), [UNSUPPORTED_VALUE text])
     ∧ run (EnvUtils.parseEnvAsString env (Some name) options)
       = (Throw (InvalidValue text), [UNSUPPORTED_VALUE text])
     ∧ run (Part000.parseEnvAsString env (Some name) options)
       = (Throw (InvalidValue text), [UNSUPPORTED_VALUE text])).
Proof.
  intros Habsent Hinherited.
  unfold EnvUtils.parseEnvAsString, EnvUtils.parseEnvAsStringOrNull,
    Part000.parseEnvAsString, EnvUtils.parseEnvAsNumber,
    EnvUtils.parseEnvAsNumberOrNull, Part000.parseEnvAsNumber.
  rewrite (process_env_inherited _ _ _ Habsent Hinherited).
  cbn [ToString Set_has]. rewrite (parseInt_inherits _ _ Hinherited).
  split; [| split; [| split]].
  - intros options. split; reflexivity.
  - intros options. unfold number_eq_null, number_lt, number_gt, NaN.
    destruct (NumberOptions.min options) as [[]|],
             (NumberOptions.max options) as [[]|]; reflexivity.
  - intros d. repeat split; reflexivity.
  - intros d A. repeat split; reflexivity.
Qed.

(** ** Present values *)

(** C5. With an allowed set [A] configured and the variable present, a
    raw value outside [A] makes each string resolver call the logger's
    [error] once ([UNSUPPORTED_VALUE]) and throw [InvalidValue]; a raw
    value inside [A] is returned as it was read and the logger is not
    called. *)
Theorem allowed_set_checked env name raw (A : gset string) (d : optional string) :
  env !! name = Some raw →
  let options := {| StringOptions.defaultValue := d;
                    StringOptions.allowed := Some A |} in
  (raw ∉ A →
     run (EnvUtils.parseEnvAsStringOrNull env (Some name) (Some options))
       = (Throw (InvalidValue raw), [UNSUPPORTED_VALUE raw])
     ∧ run (EnvUtils.parseEnvAsString env (Some name) (Some options))
       = (Throw (InvalidValue raw), [UNSUPPORTED_VALUE raw])
     ∧ run (Part000.parseEnvAsString env (Some name) (Some options))
       = (Throw (InvalidValue raw), [UNSUPPORTED_VALUE raw]))
  ∧ (raw ∈ A →
     run (EnvUtils.parseEnvAsStringOrNull env (Some name) (Some options))
       = (Return (Some raw), [])
     ∧ run (EnvUtils.parseEnvAsString env (Some name) (Some options))
       = (Return raw, [])
     ∧ run (Part000.parseEnvAsString env (Some name) (Some options))
       = (Return raw, [])).
Proof.
  intros Hpresent options.
  unfold EnvUtils.parseEnvAsString, EnvUtils.parseEnvAsStringOrNull,
    Part000.parseEnvAsString.
  present Hpresent. simpl.
  split; intros HA.
  - rewrite (bool_decide_eq_false_2 _ HA). repeat split; reflexivity.
  - rewrite (bool_decide_eq_true_2 _ HA). repeat split; reflexivity.
Qed.

(** C6. With the variable present and a raw value that [parseInt] reads
    as a Number [v] other than NaN, each numeric resolver throws
    [BelowMinimum] with the name, the raw value and the minimum when a
    minimum is configured and [v] is less; otherwise it throws
    [AboveMaximum] with the name, the raw value and the maximum when a
    maximum is configured and [v] is greater; otherwise it returns [v].
    The logger is not called. *)
Theorem numeric_bounds_checked env name raw (options : option NumberOptions.t) :
  env !! name = Some raw →
  Number_isNaN (parseInt raw) = false →
  let v := parseInt raw in
  run (EnvUtils.parseEnvAsNumberOrNull env (Some name) options)
    = match below_minimum options v, above_maximum options v with
      | Some minimum, _ => (Throw (BelowMinimum name raw minimum), [])
      | None, Some maximum => (Throw (AboveMaximum name raw maximum), [])
      | None, None => (Return (Some v), [])
      end
  ∧ run (EnvUtils.parseEnvAsNumber env (Some name) options)
    = match below_minimum options v, above_maximum options v with
      | Some minimum, _ => (Throw (BelowMinimum name raw minimum), [])
      | None, Some maximum => (Throw (AboveMaximum name raw maximum), [])
      | None, None => (Return v, [])
      end
  ∧ (∀ o, options = Some o →
     run (Part000.parseEnvAsNumber env (Some name) o)
     = match below_minimum options v, above_maximum options v with
       | Some minimum, _ => (Throw (BelowMinimum name raw minimum), [])
       | None, Some maximum => (Throw (AboveMaximum name raw maximum), [])
       | None, None => (Return v, [])
       end).
Proof.
  intros Hpresent Hnum v.
  unfold EnvUtils.parseEnvAsNumber, EnvUtils.parseEnvAsNumberOrNull,
    Part000.parseEnvAsNumber, below_minimum, above_maximum.
  present Hpresent. unfold number_eq_null. cbv beta zeta. rewrite orb_false_l.
  fold v in Hnum |- *. rewrite Hnum.
  split; [| split].
  - destruct (options ≫= NumberOptions.min) as [mn|];
      [destruct (number_lt v mn) |];
      (destruct (options ≫= NumberOptions.max) as [mx|];
        [destruct (number_gt v mx) |]); reflexivity.
  - destruct (options ≫= NumberOptions.min) as [mn|];
      [destruct (number_lt v mn) |];
      (destruct (options ≫= NumberOptions.max) as [mx|];
        [destruct (number_gt v mx) |]); reflexivity.
  - intros o ->. simpl.
    destruct (NumberOptions.min o) as [mn|];
      [destruct (number_lt v mn) |];
      (destruct (NumberOptions.max o) as [mx|];
        [destruct (number_gt v mx) |]); reflexivity.
Qed.

(** C1, amended. A present raw value is read by [parseInt] with no radix:
    after the leading white space and one sign, a value that goes on with
    ["0x"] or ["0X"] is read in base 16 from what follows that prefix, and
    any other value is read in base 10, in both cases from the longest
    leading run of digits; the value is the nearest Number, with the sign,
    and it is the integer itself below 2^53. Without a hexadecimal prefix
    this is the base-10 leading-prefix parse of the specification. When no
    digit can be read the two numeric resolvers of [src/lib/envUtils.ts]
    throw [NotANumber] with the name and the raw value; when one can, and
    no bound is configured, the numeric resolvers return the value read. *)
Theorem numeric_parse_leading_prefix env name raw :
  env !! name = Some raw →
  let negative := fst (sign_and_body raw) in
  let body := snd (sign_and_body raw) in
  let magnitude := match hex_body body with
                   | Some hex => digits_prefix 16 None hex
                   | None => digits_prefix 10 None body
                   end in
  parseInt raw = Number_of_prefix negative magnitude
  ∧ (hex_body body = None → parseInt raw = leading_base10 raw)
  ∧ (∀ m, magnitude = Some m → m < 2 ^ 53 →
       Z_of_number (parseInt raw) = Some (if negative then - m else m))
  ∧ (magnitude = None → ∀ options,
       run (EnvUtils.parseEnvAsNumberOrNull env (Some name) options)
         = (Throw (NotANumber name raw), [])
       ∧ run (EnvUtils.parseEnvAsNumber env (Some name) options)
         = (Throw (NotANumber name raw), []))
  ∧ (magnitude ≠ None →
       run (EnvUtils.parseEnvAsNumberOrNull env (Some name) None)
         = (Return (Some (parseInt raw)), [])
       ∧ run (EnvUtils.parseEnvAsNumber env (Some name) None)
         = (Return (parseInt raw), [])
       ∧ ∀ d, run (Part000.parseEnvAsNumber env (Some name)
                     {| NumberOptions.defaultValue := d;
                        NumberOptions.max := None; NumberOptions.min := None |})
              = (Return (parseInt raw), [])).
Proof.
  intros Hpresent negative body magnitude.
  assert (Hparse : parseInt raw = Number_of_prefix negative magnitude).
  { rewrite parseInt_prefix. subst negative body magnitude.
    destruct (sign_and_body raw); reflexivity. }
  split; [exact Hparse |].
  split; [apply parseInt_leading_base10 |].
  split.
  { intros m Hm Hlt. rewrite Hparse, Hm.
    assert (0 <= m).
    { subst magnitude. destruct (hex_body body);
        eapply digits_prefix_nonneg; try exact Hm; simpl; lia. }
    destruct m as [|p|p]; [destruct negative; reflexivity | | lia].
    unfold Number_of_prefix. rewrite Number_of_Z_exact; [reflexivity |].
    destruct negative; lia. }
  unfold EnvUtils.parseEnvAsNumber, EnvUtils.parseEnvAsNumberOrNull,
    Part000.parseEnvAsNumber.
  present Hpresent. cbv zeta. rewrite Hparse.
  split.
  - intros -> options. simpl. split; reflexivity.
  - intros Hdigits.
    assert (Hnum : Number_isNaN (Number_of_prefix negative magnitude) = false).
    { destruct (Number_of_prefix negative magnitude) eqn:E; try reflexivity.
      apply Number_of_prefix_NaN in E. contradiction. }
    rewrite Hnum. repeat split; reflexivity.
Qed.

(** ** Errors *)

(** C7. At the environment [{LOG_LEVEL: "verbose"}] with the allowed set
    [{"info", "debug"}], the three string resolvers throw an error whose
    message is ["unsupported NODE_ENV value verbose"]: it names
    [NODE_ENV], and [LOG_LEVEL], the variable at fault, does not occur
    in it. *)
Theorem invalid_value_error_names_NODE_ENV :
  let env : gmap string string := {[ "LOG_LEVEL" := "verbose" ]} in
  let options := Some {| StringOptions.defaultValue := undefined;
                         StringOptions.allowed := Some {[ "info"; "debug" ]} |} in
  let e := new_Error "unsupported NODE_ENV value verbose" in
  outcome (EnvUtils.parseEnvAsString env (Some "LOG_LEVEL") options) = Throw e
  ∧ outcome (EnvUtils.parseEnvAsStringOrNull env (Some "LOG_LEVEL") options) = Throw e
  ∧ outcome (Part000.parseEnvAsString env (Some "LOG_LEVEL") options) = Throw e
  ∧ identifies e "LOG_LEVEL" = false
  ∧ identifies e "NODE_ENV" = true.
Proof. vm_compute. repeat split; reflexivity. Qed.

(** X19. Every error that a numeric resolver throws for the variable
    [name] has a message that starts with [name]. *)
Lemma numeric_errors_identify_name env name options options' e :
  outcome (EnvUtils.parseEnvAsNumberOrNull env (Some name) options) = Throw e
  ∨ outcome (EnvUtils.parseEnvAsNumber env (Some name) options) = Throw e
  ∨ outcome (Part000.parseEnvAsNumber env (Some name) options') = Throw e →
  starts_with name (Error_message e) = true.
Proof.
  unfold EnvUtils.parseEnvAsNumber, EnvUtils.parseEnvAsNumberOrNull,
    Part000.parseEnvAsNumber, Part000.handleDefault.
  eff_unfold.
  intros [He|[He|He]]; revert He;
    repeat (case_match; simpl in *; simplify_eq);
    intros He; simplify_eq; apply starts_with_append.
Qed.

(** X20. An error that a string resolver throws for the variable [name]
    has a message that starts with [name], unless it is the [InvalidValue]
    error for what was read under [name], an allowed set being configured
    that does not hold it. *)
Lemma string_errors_identify_name env name options e :
  outcome (EnvUtils.parseEnvAsStringOrNull env (Some name) options) = Throw e
  ∨ outcome (EnvUtils.parseEnvAsString env (Some name) options) = Throw e
  ∨ outcome (Part000.parseEnvAsString env (Some name) options) = Throw e →
  starts_with name (Error_message e) = true
  ∨ ∃ valueStr allowed,
      process_env env name = Some valueStr
      ∧ options ≫= StringOptions.allowed = Some allowed
      ∧ Set_has allowed valueStr = false
      ∧ e = InvalidValue (ToString valueStr).
Proof.
  unfold EnvUtils.parseEnvAsString, EnvUtils.parseEnvAsStringOrNull,
    Part000.parseEnvAsString.
  eff_unfold.
  intros [He|[He|He]]; revert He;
    repeat (case_match; simpl in *; simplify_eq);
    intros He; simplify_eq;
    first [ left; apply starts_with_append
          | right; eexists _, _; repeat split;
            first [ eassumption | apply negb_true_iff; eassumption ] ].
Qed.

(** ** The two versions of the numeric resolver *)

(** C8. [parseEnvAsNumber] of [src/lib/envUtils.ts] and of
    [src/unnamed/part_000] differ on a present raw value that [parseInt]
    reads as NaN: the former throws [NotANumber], as the specification
    has it, and the latter, whose only test is [value == null], returns
    NaN. So there are inputs on which the two outcomes differ. *)
Theorem numeric_versions_diverge :
  (∀ env name raw (options : NumberOptions.t),
     env !! name = Some raw → parseInt raw = NaN →
     run (EnvUtils.parseEnvAsNumber env (Some name) (Some options))
       = (Throw (NotANumber name raw), [])
     ∧ run (Part000.parseEnvAsNumber env (Some name) options)
       = (Return NaN, []))
  ∧ ∃ env name (options : NumberOptions.t),
      outcome (EnvUtils.parseEnvAsNumber env (Some name) (Some options))
      ≠ outcome (Part000.parseEnvAsNumber env (Some name) options).
Proof.
  assert (Hall : ∀ env name raw (options : NumberOptions.t),
     env !! name = Some raw → parseInt raw = NaN →
     run (EnvUtils.parseEnvAsNumber env (Some name) (Some options))
       = (Throw (NotANumber name raw), [])
     ∧ run (Part000.parseEnvAsNumber env (Some name) options)
       = (Return NaN, [])).
  { intros env name raw options Hpresent Hnan.
    unfold EnvUtils.parseEnvAsNumber, EnvUtils.parseEnvAsNumberOrNull,
      Part000.parseEnvAsNumber.
    present Hpresent. cbv zeta. rewrite Hnan. split; [reflexivity |].
    unfold number_eq_null, number_lt, number_gt, NaN.
    destruct (NumberOptions.min options) as [[]|],
             (NumberOptions.max options) as [[]|]; reflexivity. }
  split; [exact Hall |].
  exists {[ "PORT" := "abc" ]}, "PORT",
    {| NumberOptions.defaultValue := undefined;
       NumberOptions.max := None; NumberOptions.min := None |}.
  destruct (Hall {[ "PORT" := "abc" ]} "PORT" "abc"
             {| NumberOptions.defaultValue := undefined;
                NumberOptions.max := None; NumberOptions.min := None |})
    as [H1 H2]; [apply lookup_singleton_eq | reflexivity |].
  unfold outcome. rewrite H1, H2. discriminate.
Qed.

End Resolution.

(** ** The resolvers on concrete inputs *)









(** [NODE_ENV] set to ["staging"], which is not allowed, and to ["test"],
    which is. *)
Lemma allowed_set_checked_witness :
  ({[ "NODE_ENV" := "staging" ]} : gmap string string) !! "NODE_ENV" = Some "staging"
  ∧ ("staging" ∉ VALID_NODE_ENV)
  ∧ run (EnvUtils.parseEnvAsString {[ "NODE_ENV" := "staging" ]} (Some "NODE_ENV")
       (Some {| StringOptions.defaultValue := undefined;
                StringOptions.allowed := Some VALID_NODE_ENV |}))
    = (Throw (InvalidValue "staging"), [UNSUPPORTED_VALUE "staging"])
  ∧ ({[ "NODE_ENV" := "test" ]} : gmap string string) !! "NODE_ENV" = Some "test"
  ∧ ("test" ∈ VALID_NODE_ENV)
  ∧ run (EnvUtils.parseEnvAsString {[ "NODE_ENV" := "test" ]} (Some "NODE_ENV")
       (Some {| StringOptions.defaultValue := undefined;
                StringOptions.allowed := Some VALID_NODE_ENV |}))
    = (Return "test", []).
Proof.
  assert (H1 : ({[ "NODE_ENV" := "staging" ]} : gmap string string) !! "NODE_ENV"
               = Some "staging") by apply lookup_singleton_eq.
  assert (H2 : "staging" ∉ VALID_NODE_ENV) by compute_done.
  assert (H3 : ({[ "NODE_ENV" := "test" ]} : gmap string string) !! "NODE_ENV"
               = Some "test") by apply lookup_singleton_eq.
  assert (H4 : "test" ∈ VALID_NODE_ENV) by compute_done.
  destruct (allowed_set_checked _ _ _ VALID_NODE_ENV undefined H1) as (Hout & _).
  destruct (Hout H2) as (_ & Hw1 & _).
  destruct (allowed_set_checked _ _ _ VALID_NODE_ENV undefined H3) as (_ & Hin).
  destruct (Hin H4) as (_ & Hw2 & _).
  repeat split; assumption.
Defined.

(** [PORT] set to ["99999"] with [max: 65535]. *)
Lemma numeric_bounds_checked_witness :
  ({[ "PORT" := "99999" ]} : gmap string string) !! "PORT" = Some "99999"
  ∧ Number_isNaN (parseInt "99999") = false
  ∧ run (EnvUtils.parseEnvAsNumber (toStr := integer_toString)
       {[ "PORT" := "99999" ]} (Some "PORT")
       (Some {| NumberOptions.defaultValue := undefined;
                NumberOptions.max := Some (Number_of_Z 65535);
                NumberOptions.min := None |}))
    = (Throw (AboveMaximum (toStr := integer_toString) "PORT" "99999" (Number_of_Z 65535)), []).
Proof.
  assert (H1 : ({[ "PORT" := "99999" ]} : gmap string string) !! "PORT"
               = Some "99999") by apply lookup_singleton_eq.
  assert (H2 : Number_isNaN (parseInt "99999") = false) by reflexivity.
  split; [exact H1 | split; [exact H2 |]].
  destruct (numeric_bounds_checked (toStr := integer_toString) _ _ _
              (Some {| NumberOptions.defaultValue := undefined;
                       NumberOptions.max := Some (Number_of_Z 65535);
                       NumberOptions.min := None |}) H1 H2) as (_ & Hw & _).
  rewrite Hw. reflexivity.
Defined.

(** [PORT] set to ["8080abc"], which resolves to 8080, and to ["abc"]. *)
Lemma numeric_parse_leading_prefix_witness :
  ({[ "PORT" := "8080abc" ]} : gmap string string) !! "PORT" = Some "8080abc"
  ∧ run (EnvUtils.parseEnvAsNumber (toStr := integer_toString)
       {[ "PORT" := "8080abc" ]} (Some "PORT") None)
    = (Return (Number_of_Z 8080), [])
  ∧ Z_of_number (parseInt "8080abc") = Some 8080
  ∧ ({[ "PORT" := "abc" ]} : gmap string string) !! "PORT" = Some "abc"
  ∧ run (EnvUtils.parseEnvAsNumber (toStr := integer_toString)
       {[ "PORT" := "abc" ]} (Some "PORT") None)
    = (Throw (NotANumber "PORT" "abc"), []).
Proof.
  assert (H1 : ({[ "PORT" := "8080abc" ]} : gmap string string) !! "PORT"
               = Some "8080abc") by apply lookup_singleton_eq.
  assert (H2 : ({[ "PORT" := "abc" ]} : gmap string string) !! "PORT"
               = Some "abc") by apply lookup_singleton_eq.
  destruct (numeric_parse_leading_prefix (toStr := integer_toString) _ _ _ H1)
    as (_ & _ & Hexact & _ & Hsome).
  destruct (Hsome ltac:(discriminate)) as (_ & Hw1 & _).
  destruct (numeric_parse_leading_prefix (toStr := integer_toString) _ _ _ H2)
    as (_ & _ & _ & Hnone & _).
  destruct (Hnone eq_refl None) as (_ & Hw2).
  split; [exact H1 |].
  split; [rewrite Hw1; reflexivity |].
  split; [exact (Hexact 8080 eq_refl eq_refl) |].
  split; [exact H2 | exact Hw2].
Defined.

(** C1, as stated, fails at [PORT] set to ["0x1F"]: the resolver returns
    31, and the base-10 leading-prefix parse of ["0x1F"] is 0. *)
Lemma numeric_parse_not_base10 :
  run (EnvUtils.parseEnvAsNumber (toStr := integer_toString)
         {[ "PORT" := "0x1F" ]} (Some "PORT") None)
    = (Return (Number_of_Z 31), [])
  ∧ base10_resolution "PORT" "0x1F" = (Return positive_zero, [])
  ∧ run (EnvUtils.parseEnvAsNumber (toStr := integer_toString)
           {[ "PORT" := "0x1F" ]} (Some "PORT") None)
    ≠ base10_resolution "PORT" "0x1F".
Proof.
  split; [reflexivity | split; [reflexivity |]].
  vm_compute. discriminate.
Qed.

(** [PORT] set to ["abc"]: [NotANumber] from the one version, NaN from
    the other. *)
Lemma numeric_versions_diverge_witness :
  ({[ "PORT" := "abc" ]} : gmap string string) !! "PORT" = Some "abc"
  ∧ parseInt "abc" = NaN
  ∧ run (EnvUtils.parseEnvAsNumber (toStr := integer_toString)
       {[ "PORT" := "abc" ]} (Some "PORT")
       (Some {| NumberOptions.defaultValue := value (Number_of_Z 8080);
                NumberOptions.max := Some (Number_of_Z 65535);
                NumberOptions.min := Some (Number_of_Z 1) |}))
    = (Throw (NotANumber "PORT" "abc"), [])
  ∧ run (Part000.parseEnvAsNumber (toStr := integer_toString)
       {[ "PORT" := "abc" ]} (Some "PORT")
       {| NumberOptions.defaultValue := value (Number_of_Z 8080);
          NumberOptions.max := Some (Number_of_Z 65535);
          NumberOptions.min := Some (Number_of_Z 1) |})
    = (Return NaN, []).
Proof.
  assert (H1 : ({[ "PORT" := "abc" ]} : gmap string string) !! "PORT"
               = Some "abc") by apply lookup_singleton_eq.
  assert (H2 : parseInt "abc" = NaN) by reflexivity.
  split; [exact H1 | split; [exact H2 |]].
  destruct (numeric_versions_diverge (toStr := integer_toString)) as (Hall & _).
  exact (Hall _ _ _ _ H1 H2).
Defined.

(** The scenarios of the specification that are not above. *)
Example PORT_3000 :
  run (EnvUtils.parseEnvAsNumber (toStr := integer_toString)
         {[ "PORT" := "3000" ]} (Some "PORT")
         (Some {| NumberOptions.defaultValue := value (Number_of_Z 8080);
                  NumberOptions.max := Some (Number_of_Z 65535);
                  NumberOptions.min := Some (Number_of_Z 1) |}))
  = (Return (Number_of_Z 3000), []).
Proof. reflexivity. Qed.

Example SESSION_SECRET_abc123 :
  run (EnvUtils.parseEnvAsString {[ "SESSION_SECRET" := "abc123" ]}
         (Some "SESSION_SECRET") None)
  = (Return "abc123", []).
Proof. reflexivity. Qed.

(** The name [toString], with no variable of that name set: what is
    read is the function that [process.env] inherits. *)
Example toString_not_set :
  run (EnvUtils.parseEnvAsStringOrNull ∅ (Some "toString") None)
    = (Return_object "toString", [])
  ∧ run (Part000.parseEnvAsString ∅ (Some "toString")
           (Some {| StringOptions.defaultValue := undefined;
                    StringOptions.allowed := Some VALID_NODE_ENV |}))
    = (Throw (InvalidValue "function toString() { [native code] }"),
       [UNSUPPORTED_VALUE "function toString() { [native code] }"])
  ∧ run (EnvUtils.parseEnvAsNumber (toStr := integer_toString) ∅ (Some "toString")
           (Some {| NumberOptions.defaultValue := value (Number_of_Z 1);
                    NumberOptions.max := None; NumberOptions.min := None |}))
    = (Throw (NotANumber "toString" "function toString() { [native code] }"), [])
  ∧ run (Part000.parseEnvAsNumber (toStr := integer_toString) ∅ (Some "toString")
           {| NumberOptions.defaultValue := value (Number_of_Z 1);
              NumberOptions.max := None; NumberOptions.min := None |})
    = (Return NaN, [])
  ∧ run (EnvUtils.parseEnvAsString {[ "toString" := "abc" ]} (Some "toString") None)
    = (Return "abc", []).
Proof. repeat split; reflexivity. Qed.

Example parseInt_examples :
  parseInt "8080abc" = Number_of_Z 8080
  ∧ parseInt "  -42px" = Number_of_Z (-42)
  ∧ parseInt "0x1F" = Number_of_Z 31
  ∧ parseInt "0x" = NaN
  ∧ parseInt "" = NaN
  ∧ parseInt "-0" = negative_zero
  ∧ parseInt "1e3" = Number_of_Z 1
  ∧ parseInt "9007199254740993" = Number_of_Z 9007199254740992
  ∧ Z_of_number (parseInt "8080abc") = Some 8080.
Proof. repeat split; vm_compute; reflexivity. Qed.

(** * Further properties *)

(** ** Construction *)

Section Construction.
Context {toStr : NumberToString}.
Implicit Types (env : gmap string string) (defaults : Defaults.t).

Ltac construct :=
  unfold EnvUtilsClass.constructor, Part000Class.constructor,
    EnvUtils.parseEnvAsString, EnvUtils.parseEnvAsStringOrNull,
    EnvUtils.parseEnvAsNumber, EnvUtils.parseEnvAsNumberOrNull,
    Part000.parseEnvAsString, Part000.parseEnvAsNumber, Part000.handleDefault,
    number_eq_null, default_warnings;
  rewrite ?(process_env_own _ "SESSION_SECRET" eq_refl),
    ?(process_env_own _ "NODE_ENV" eq_refl), ?(process_env_own _ "PORT" eq_refl),
    ?(process_env_own _ "SERVER_HOST" eq_refl),
    ?(process_env_own _ "FROM_EMAIL" eq_refl).

Ltac read :=
  cbn [fmap option_fmap option_map ToString Set_has mbind option_bind
       StringOptions.allowed].

(** X1. When [SESSION_SECRET] is set, [NODE_ENV] is set to one of the
    three valid names and [PORT] is not set or is read as a number by
    [parseInt], the constructor of [src/lib/envUtils.ts] succeeds: the
    secret and [NODE_ENV] come from the environment, the three other
    fields come from the environment when set and from [defaults]
    otherwise, and one [DEFAULT_USED] entry is emitted per default used. *)
Theorem constructor_resolves_fields env defaults loggerLevel secret node_env :
  env !! "SESSION_SECRET" = Some secret →
  env !! "NODE_ENV" = Some node_env →
  node_env ∈ VALID_NODE_ENV →
  (∀ raw, env !! "PORT" = Some raw → Number_isNaN (parseInt raw) = false) →
  EnvUtilsClass.constructor env defaults loggerLevel
  = (Return {| PartialEnv.logger_level := loggerLevelNotNull loggerLevel;
               PartialEnv._nodeEnv := node_env;
               PartialEnv._port :=
                 from_option parseInt (Defaults.port defaults) (env !! "PORT");
               PartialEnv._sessionSecret := secret;
               PartialEnv._serverHost :=
                 default (Defaults.host defaults) (env !! "SERVER_HOST");
               PartialEnv._fromEmail :=
                 default (Defaults.fromEmail defaults) (env !! "FROM_EMAIL") |},
     default_warnings env defaults).
Proof.
  intros Hsecret Hnode Hvalid Hport. construct.
  rewrite Hsecret, Hnode. read.
  rewrite (bool_decide_eq_true_2 _ Hvalid).
  destruct (env !! "PORT") as [port|] eqn:Eport;
    [read; rewrite (Hport port eq_refl) |];
    destruct (env !! "SERVER_HOST") as [server_host|];
    destruct (env !! "FROM_EMAIL") as [from_email|];
    reflexivity.
Qed.

(** X2. The constructor of [src/lib/envUtils.ts] fails on the first field
    that cannot be resolved, in the order [SESSION_SECRET], [NODE_ENV],
    [PORT], whatever the later variables are: a missing secret or
    [NODE_ENV] gives [MissingRequiredVariable] and no entry, a [NODE_ENV]
    outside the valid names gives [InvalidValue] after one
    [UNSUPPORTED_VALUE] entry, and a [PORT] that [parseInt] reads as NaN
    gives [NotANumber] and no entry. *)
Theorem constructor_fails_fast env defaults loggerLevel :
  (env !! "SESSION_SECRET" = None →
     EnvUtilsClass.constructor env defaults loggerLevel
     = (Throw (MissingRequiredVariable "SESSION_SECRET"), []))
  ∧ (∀ secret, env !! "SESSION_SECRET" = Some secret →
     env !! "NODE_ENV" = None →
     EnvUtilsClass.constructor env defaults loggerLevel
     = (Throw (MissingRequiredVariable "NODE_ENV"), []))
  ∧ (∀ secret node_env, env !! "SESSION_SECRET" = Some secret →
     env !! "NODE_ENV" = Some node_env → node_env ∉ VALID_NODE_ENV →
     EnvUtilsClass.constructor env defaults loggerLevel
     = (Throw (InvalidValue node_env), [UNSUPPORTED_VALUE node_env]))
  ∧ (∀ secret node_env raw, env !! "SESSION_SECRET" = Some secret →
     env !! "NODE_ENV" = Some node_env → node_env ∈ VALID_NODE_ENV →
     env !! "PORT" = Some raw → parseInt raw = NaN →
     EnvUtilsClass.constructor env defaults loggerLevel
     = (Throw (NotANumber "PORT" raw), [])).
Proof.
  construct. repeat split.
  - intros ->. reflexivity.
  - intros secret -> ->. reflexivity.
  - intros secret node_env -> -> Hinvalid.
    read.
    rewrite (bool_decide_eq_false_2 _ Hinvalid). reflexivity.
  - intros secret node_env raw -> -> Hvalid -> Hnan.
    read.
    rewrite (bool_decide_eq_true_2 _ Hvalid), Hnan. reflexivity.
Qed.

(** X3. An object that the constructor of [src/lib/envUtils.ts] returns
    is valid: its secret and its [nodeEnv] are the values of the
    environment, [nodeEnv] is one of the three valid names, a [port] read
    from the environment is not NaN, the level of its logger is not empty,
    and what was emitted is the [DEFAULT_USED] entries of the defaults
    used, nothing else. *)
Theorem constructed_object_valid env defaults loggerLevel this log :
  EnvUtilsClass.constructor env defaults loggerLevel = (Return this, log) →
  env !! "SESSION_SECRET" = Some (PartialEnv.sessionSecret this)
  ∧ env !! "NODE_ENV" = Some (PartialEnv.nodeEnv this)
  ∧ PartialEnv.nodeEnv this ∈ VALID_NODE_ENV
  ∧ PartialEnv.port this
    = from_option parseInt (Defaults.port defaults) (env !! "PORT")
  ∧ (is_Some (env !! "PORT") → Number_isNaN (PartialEnv.port this) = false)
  ∧ PartialEnv.serverHost this
    = default (Defaults.host defaults) (env !! "SERVER_HOST")
  ∧ PartialEnv.fromEmail this
    = default (Defaults.fromEmail defaults) (env !! "FROM_EMAIL")
  ∧ PartialEnv.logger_level this ≠ ""
  ∧ log = default_warnings env defaults.
Proof.
  construct.
  destruct (env !! "SESSION_SECRET") as [secret|]; [| discriminate].
  destruct (env !! "NODE_ENV") as [node_env|]; [| discriminate].
  read.
  destruct (decide (node_env ∈ VALID_NODE_ENV)) as [Hvalid|Hinvalid];
    [rewrite (bool_decide_eq_true_2 _ Hvalid)
    | rewrite (bool_decide_eq_false_2 _ Hinvalid); discriminate].
  assert (Hlevel : loggerLevelNotNull loggerLevel ≠ "").
  { destruct loggerLevel as [[|c l]|]; discriminate. }
  destruct (env !! "PORT") as [port|];
    [read; destruct (Number_isNaN (parseInt port)) eqn:Hnan; [discriminate |] |];
    destruct (env !! "SERVER_HOST") as [server_host|];
    destruct (env !! "FROM_EMAIL") as [from_email|];
    intros [= <- <-]; simpl;
    repeat split;
    first [ assumption | reflexivity | intros _; assumption | intros [? [=]] ].
Qed.

(** X4. When the constructor of [src/lib/envUtils.ts] fails, no default
    was announced: nothing was emitted, or the one [UNSUPPORTED_VALUE]
    entry of an invalid [NODE_ENV]; and the failure is about
    [SESSION_SECRET], [NODE_ENV] or [PORT], never about [SERVER_HOST] or
    [FROM_EMAIL]. *)
Theorem failed_construction_is_silent env defaults loggerLevel e log :
  EnvUtilsClass.constructor env defaults loggerLevel = (Throw e, log) →
  (e = MissingRequiredVariable "SESSION_SECRET" ∧ log = [])
  ∨ (e = MissingRequiredVariable "NODE_ENV" ∧ log = [])
  ∨ (∃ node_env, env !! "NODE_ENV" = Some node_env
       ∧ e = InvalidValue node_env ∧ log = [UNSUPPORTED_VALUE node_env])
  ∨ (∃ raw, env !! "PORT" = Some raw
       ∧ e = NotANumber "PORT" raw ∧ log = []).
Proof.
  construct.
  destruct (env !! "SESSION_SECRET") as [secret|];
    [| intros [= <- <-]; left; split; reflexivity].
  destruct (env !! "NODE_ENV") as [node_env|];
    [| intros [= <- <-]; right; left; split; reflexivity].
  read.
  destruct (decide (node_env ∈ VALID_NODE_ENV)) as [Hvalid|Hinvalid];
    [rewrite (bool_decide_eq_true_2 _ Hvalid)
    | rewrite (bool_decide_eq_false_2 _ Hinvalid);
      intros [= <- <-]; right; right; left; exists node_env; repeat split].
  destruct (env !! "PORT") as [port|];
    [read; destruct (Number_isNaN (parseInt port)) eqn:Hnan;
      [intros [= <- <-]; right; right; right; exists port; repeat split |] |];
    destruct (env !! "SERVER_HOST") as [server_host|];
    destruct (env !! "FROM_EMAIL") as [from_email|];
    discriminate.
Qed.

(** X5. The constructor of [src/unnamed/part_000] does not fail on
    [PORT]: with [SESSION_SECRET] set and [NODE_ENV] set to a valid name
    it returns an object for every value of [PORT], whose [port] is what
    [parseInt] gives, NaN when no digit can be read. *)
Theorem part_000_constructor_accepts_any_port env defaults loggerLevel secret node_env :
  env !! "SESSION_SECRET" = Some secret →
  env !! "NODE_ENV" = Some node_env →
  node_env ∈ VALID_NODE_ENV →
  Part000Class.constructor env defaults loggerLevel
  = (Return {| PartialEnv.logger_level := loggerLevelNotNull loggerLevel;
               PartialEnv._nodeEnv := node_env;
               PartialEnv._port :=
                 from_option parseInt (Defaults.port defaults) (env !! "PORT");
               PartialEnv._sessionSecret := secret;
               PartialEnv._serverHost :=
                 default (Defaults.host defaults) (env !! "SERVER_HOST");
               PartialEnv._fromEmail :=
                 default (Defaults.fromEmail defaults) (env !! "FROM_EMAIL") |},
     default_warnings env defaults).
Proof.
  intros Hsecret Hnode Hvalid. construct.
  rewrite Hsecret, Hnode. read.
  rewrite (bool_decide_eq_true_2 _ Hvalid).
  destruct (env !! "PORT") as [port|];
    destruct (env !! "SERVER_HOST") as [server_host|];
    destruct (env !! "FROM_EMAIL") as [from_email|];
    reflexivity.
Qed.

(** X6. The two constructors give the same result, object or error, and
    the same entries, on every environment in which [PORT] is not set or
    is read as a number by [parseInt]. *)
Theorem constructors_agree env defaults loggerLevel :
  (∀ raw, env !! "PORT" = Some raw → Number_isNaN (parseInt raw) = false) →
  EnvUtilsClass.constructor env defaults loggerLevel
  = Part000Class.constructor env defaults loggerLevel.
Proof.
  intros Hport. construct.
  destruct (env !! "SESSION_SECRET") as [secret|]; [| reflexivity].
  destruct (env !! "NODE_ENV") as [node_env|]; [| reflexivity].
  read.
  destruct (bool_decide (node_env ∈ VALID_NODE_ENV)); [| reflexivity].
  destruct (env !! "PORT") as [port|];
    [read; rewrite (Hport port eq_refl) |];
    destruct (env !! "SERVER_HOST") as [server_host|];
    destruct (env !! "FROM_EMAIL") as [from_email|];
    reflexivity.
Qed.

(** A construction returns an object of the class or throws: none of the
    five names it resolves is inherited by [process.env], so no field is
    given an inherited object. *)
Lemma constructor_returns_or_throws env defaults loggerLevel o log :
  EnvUtilsClass.constructor env defaults loggerLevel ≠ (Return_object o, log)
  ∧ Part000Class.constructor env defaults loggerLevel ≠ (Return_object o, log).
Proof.
  construct.
  split;
    (destruct (env !! "SESSION_SECRET") as [secret|]; [| discriminate]);
    (destruct (env !! "NODE_ENV") as [node_env|]; [| discriminate]);
    read;
    (destruct (bool_decide (node_env ∈ VALID_NODE_ENV)); [| discriminate]);
    (destruct (env !! "PORT") as [port|];
       [read; try destruct (Number_isNaN (parseInt port)); try discriminate |]);
    destruct (env !! "SERVER_HOST") as [server_host|];
    destruct (env !! "FROM_EMAIL") as [from_email|];
    discriminate.
Qed.

End Construction.

(** ** The resolvers: defaults, entries, versions *)

Section Resolvers_further.
Context {toStr : NumberToString}.
Implicit Types (env : gmap string string) (name raw : string).

Ltac resolvers :=
  unfold EnvUtils.parseEnvAsString, EnvUtils.parseEnvAsStringOrNull,
    EnvUtils.parseEnvAsNumber, EnvUtils.parseEnvAsNumberOrNull,
    Part000.parseEnvAsString, Part000.parseEnvAsNumber, Part000.handleDefault,
    number_eq_null.

(** X7. A variable that is set overrides the default: with the variable
    present, the result of each resolver and what it emits are the same
    whatever [defaultValue] holds, and no entry of level [warn] is
    emitted. *)
Theorem present_value_overrides_default env name raw :
  env !! name = Some raw →
  (∀ (d d' : optional string) allowed,
     let options := Some {| StringOptions.defaultValue := d;
                            StringOptions.allowed := allowed |} in
     let options' := Some {| StringOptions.defaultValue := d';
                             StringOptions.allowed := allowed |} in
     run (EnvUtils.parseEnvAsStringOrNull env (Some name) options)
       = run (EnvUtils.parseEnvAsStringOrNull env (Some name) options')
     ∧ run (EnvUtils.parseEnvAsString env (Some name) options)
       = run (EnvUtils.parseEnvAsString env (Some name) options')
     ∧ run (Part000.parseEnvAsString env (Some name) options)
       = run (Part000.parseEnvAsString env (Some name) options')
     ∧ Forall (fun entry => level entry ≠ warn)
         (emitted (EnvUtils.parseEnvAsString env (Some name) options)))
  ∧ (∀ (d d' : optional number) max min,
     let options := {| NumberOptions.defaultValue := d;
                       NumberOptions.max := max; NumberOptions.min := min |} in
     let options' := {| NumberOptions.defaultValue := d';
                        NumberOptions.max := max; NumberOptions.min := min |} in
     run (EnvUtils.parseEnvAsNumberOrNull env (Some name) (Some options))
       = run (EnvUtils.parseEnvAsNumberOrNull env (Some name) (Some options'))
     ∧ run (EnvUtils.parseEnvAsNumber env (Some name) (Some options))
       = run (EnvUtils.parseEnvAsNumber env (Some name) (Some options'))
     ∧ run (Part000.parseEnvAsNumber env (Some name) options)
       = run (Part000.parseEnvAsNumber env (Some name) options')
     ∧ emitted (EnvUtils.parseEnvAsNumber env (Some name) (Some options)) = []).
Proof.
  intros Hpresent. resolvers. eff_unfold. present Hpresent. split.
  - intros d d' allowed. simpl.
    repeat split; try reflexivity.
    destruct allowed as [A|]; [destruct (bool_decide (raw ∈ A)) |]; simpl;
      repeat constructor; discriminate.
  - intros d d' max min. simpl.
    repeat split; try reflexivity.
    destruct (Number_isNaN (parseInt raw)); [reflexivity |].
    destruct min as [mn|]; [destruct (number_lt (parseInt raw) mn) |];
      (destruct max as [mx|]; [destruct (number_gt (parseInt raw) mx) |]);
      reflexivity.
Qed.

(** X8. A resolver sends the logger at most one entry. A string resolver
    emits nothing, or one [DEFAULT_USED] entry when the variable is absent,
    or one [UNSUPPORTED_VALUE] entry when it then throws [InvalidValue].
    A numeric resolver never calls [error]: it emits nothing, or one
    [DEFAULT_USED] entry when the variable is absent. *)
Theorem resolvers_emit_at_most_one_entry env name
    (soptions : option StringOptions.t) (noptions : option NumberOptions.t)
    (noptions' : NumberOptions.t) :
  string_resolver_emits env name
    (run (EnvUtils.parseEnvAsStringOrNull env (Some name) soptions))
  ∧ string_resolver_emits env name
      (run (EnvUtils.parseEnvAsString env (Some name) soptions))
  ∧ string_resolver_emits env name
      (run (Part000.parseEnvAsString env (Some name) soptions))
  ∧ number_resolver_emits env name
      (run (EnvUtils.parseEnvAsNumberOrNull env (Some name) noptions))
  ∧ number_resolver_emits env name
      (run (EnvUtils.parseEnvAsNumber env (Some name) noptions))
  ∧ number_resolver_emits env name
      (run (Part000.parseEnvAsNumber env (Some name) noptions')).
Proof.
  unfold string_resolver_emits, number_resolver_emits.
  resolvers. eff_unfold.
  destruct (process_env env name) as [valueStr|] eqn:Hread.
  - repeat split.
    1-3: destruct soptions as [[d [A|]]|]; simpl;
      try (destruct (Set_has A valueStr); simpl);
      destruct valueStr as [raw|inherited_name text];
      first [ left; reflexivity
            | right; right; eexists; split; reflexivity ].
    all: left; simpl; destruct (Number_isNaN (parseInt (ToString valueStr)));
      try reflexivity;
      repeat (case_match; simplify_eq/=; try reflexivity).
  - apply process_env_None in Hread as [Habsent _].
    repeat split.
    1-3: destruct soptions as [[[| |d] A]|]; simpl;
      first [ left; reflexivity
            | right; left; split; [assumption | eexists; reflexivity] ].
    all: destruct noptions as [[[| |d] mx mn]|], noptions' as [[| |d'] mx' mn'];
      simpl;
      first [ left; reflexivity
            | right; split; [assumption | eexists; reflexivity] ].
Qed.

(** X9. The two versions of [parseEnvAsString] complete alike on every
    input. They also emit the same entries, except when the variable is
    absent, under a name that [process.env] does not inherit, and the
    default is [null]: both then throw [MissingRequiredVariable], the
    version of [src/lib/envUtils.ts] after a [DEFAULT_USED] entry for the
    default [null], the other one without any entry. *)
Theorem string_versions_agree env (envVarName : option string)
    (options : option StringOptions.t) :
  outcome (EnvUtils.parseEnvAsString env envVarName options)
  = outcome (Part000.parseEnvAsString env envVarName options)
  ∧ ((∀ name o, envVarName = Some name →
        env !! name = None → inherits name = None →
        options = Some o → StringOptions.defaultValue o ≠ null) →
     run (EnvUtils.parseEnvAsString env envVarName options)
     = run (Part000.parseEnvAsString env envVarName options))
  ∧ (∀ name allowed, envVarName = Some name →
       env !! name = None → inherits name = None →
       options = Some {| StringOptions.defaultValue := null;
                         StringOptions.allowed := allowed |} →
       run (EnvUtils.parseEnvAsString env envVarName options)
         = (Throw (MissingRequiredVariable name), [DEFAULT_USED name "null"])
       ∧ run (Part000.parseEnvAsString env envVarName options)
         = (Throw (MissingRequiredVariable name), [])).
Proof.
  resolvers. eff_unfold.
  destruct envVarName as [name|]; [| repeat split; intros; discriminate].
  destruct (process_env env name) as [valueStr|] eqn:Hread.
  - assert (Hset : ∀ name', Some name = Some name' →
                     env !! name' = None → inherits name' = None → False).
    { intros name' [= <-] Habsent Hown.
      rewrite (process_env_undefined _ _ Habsent Hown) in Hread. discriminate. }
    repeat split; try solve [intros; exfalso; eauto].
    all: intros; destruct (options ≫= StringOptions.allowed) as [A|];
      [destruct (Set_has A valueStr) |];
      destruct valueStr as [raw|inherited_name text]; reflexivity.
  - apply process_env_None in Hread as [Habsent Hown].
    destruct options as [[[| |d] A]|]; simpl; repeat split;
      try reflexivity; try (intros; simplify_eq; reflexivity).
    intros Hd. exfalso. exact (Hd name _ eq_refl Habsent Hown eq_refl eq_refl).
Qed.

(** X10. The two versions of [parseEnvAsNumber] complete alike on every
    input on which what [process.env] gives under the name is
    [undefined] or is read as a number by [parseInt]; unless the default
    is [null], they emit the same entries too. The versions differ only
    where [parseInt] gives NaN. *)
Theorem numeric_versions_agree_on_numbers env (envVarName : option string)
    (options : NumberOptions.t) :
  (∀ name valueStr, envVarName = Some name →
     process_env env name = Some valueStr →
     Number_isNaN (parseInt (ToString valueStr)) = false) →
  outcome (EnvUtils.parseEnvAsNumber env envVarName (Some options))
  = outcome (Part000.parseEnvAsNumber env envVarName options)
  ∧ (NumberOptions.defaultValue options ≠ null →
     run (EnvUtils.parseEnvAsNumber env envVarName (Some options))
     = run (Part000.parseEnvAsNumber env envVarName options)).
Proof.
  intros Hnum. resolvers. eff_unfold.
  destruct envVarName as [name|]; [| split; reflexivity].
  destruct (process_env env name) as [valueStr|] eqn:Hread.
  - rewrite (Hnum name valueStr eq_refl Hread). simpl.
    destruct (NumberOptions.min options) as [mn|];
      [destruct (number_lt (parseInt (ToString valueStr)) mn) |];
      (destruct (NumberOptions.max options) as [mx|];
        [destruct (number_gt (parseInt (ToString valueStr)) mx) |]);
      split; reflexivity.
  - destruct options as [[| |d] mx mn]; simpl; split;
      try reflexivity; intros Hd; try reflexivity; contradiction.
Qed.

(** X11. A Number that a numeric resolver returns for a variable that is
    set is the value [parseInt] gives to the raw string, it is not less
    than a configured [min] nor greater than a configured [max], and
    nothing was emitted; from the resolvers of [src/lib/envUtils.ts] it
    is not NaN. *)
Theorem returned_number_within_bounds env name raw (options : NumberOptions.t)
    (v : number) (log : list LogEntry) :
  env !! name = Some raw →
  run (EnvUtils.parseEnvAsNumber env (Some name) (Some options)) = (Return v, log)
  ∨ run (EnvUtils.parseEnvAsNumberOrNull env (Some name) (Some options))
    = (Return (Some v), log)
  ∨ run (Part000.parseEnvAsNumber env (Some name) options) = (Return v, log) →
  v = parseInt raw
  ∧ log = []
  ∧ (∀ minimum, NumberOptions.min options = Some minimum →
       number_lt v minimum = false)
  ∧ (∀ maximum, NumberOptions.max options = Some maximum →
       number_gt v maximum = false)
  ∧ (run (EnvUtils.parseEnvAsNumber env (Some name) (Some options)) = (Return v, log)
     ∨ run (EnvUtils.parseEnvAsNumberOrNull env (Some name) (Some options))
       = (Return (Some v), log) →
     Number_isNaN v = false).
Proof.
  intros Hpresent. resolvers. eff_unfold. present Hpresent. simpl.
  intros Hrun.
  destruct (Number_isNaN (parseInt raw)) eqn:Hnan;
    destruct (NumberOptions.min options) as [mn|];
    try destruct (number_lt (parseInt raw) mn) eqn:Hlt;
    destruct (NumberOptions.max options) as [mx|];
    try destruct (number_gt (parseInt raw) mx) eqn:Hgt;
    destruct Hrun as [Hrun|[Hrun|Hrun]]; simplify_eq;
    repeat split; try (intros ? [= <-]; assumption);
    try (intros; discriminate);
    first [ assumption | intros _; assumption | intros [[=]|[=]] ].
Qed.

(** What an [...OrNull] resolver read is never returned as [null]. *)
Lemma read_is_not_null env name (valueStr : property)
    (soptions : option StringOptions.t) (noptions : option NumberOptions.t) :
  process_env env name = Some valueStr →
  outcome (EnvUtils.parseEnvAsStringOrNull env (Some name) soptions) ≠ Return None
  ∧ outcome (EnvUtils.parseEnvAsNumberOrNull env (Some name) noptions) ≠ Return None.
Proof.
  intros Hread. resolvers. eff_unfold. rewrite Hread. split.
  - destruct (soptions ≫= StringOptions.allowed) as [A|];
      [destruct (Set_has A valueStr) |];
      destruct valueStr; discriminate.
  - simpl. destruct (Number_isNaN (parseInt (ToString valueStr))); [discriminate |].
    repeat (case_match; simplify_eq/=); discriminate.
Qed.

(** X12. An [...OrNull] resolver returns [null] in one case only: the
    variable is absent, under a name that [process.env] does not inherit,
    and the configured default is [null]. In that case the resolver
    without [OrNull] announces the default [null] and then throws
    [MissingRequiredVariable]. *)
Theorem null_only_from_null_default env name
    (soptions : option StringOptions.t) (noptions : option NumberOptions.t) :
  (outcome (EnvUtils.parseEnvAsStringOrNull env (Some name) soptions) = Return None
   ↔ env !! name = None ∧ inherits name = None
     ∧ ∃ o, soptions = Some o ∧ StringOptions.defaultValue o = null)
  ∧ (outcome (EnvUtils.parseEnvAsNumberOrNull env (Some name) noptions) = Return None
     ↔ env !! name = None ∧ inherits name = None
       ∧ ∃ o, noptions = Some o ∧ NumberOptions.defaultValue o = null)
  ∧ (outcome (EnvUtils.parseEnvAsStringOrNull env (Some name) soptions) = Return None →
     run (EnvUtils.parseEnvAsString env (Some name) soptions)
     = (Throw (MissingRequiredVariable name), [DEFAULT_USED name "null"]))
  ∧ (outcome (EnvUtils.parseEnvAsNumberOrNull env (Some name) noptions) = Return None →
     run (EnvUtils.parseEnvAsNumber env (Some name) noptions)
     = (Throw (MissingRequiredVariable name), [DEFAULT_USED name "null"])).
Proof.
  destruct (process_env env name) as [valueStr|] eqn:Hread.
  - destruct (read_is_not_null env name valueStr soptions noptions Hread)
      as [Hs Hn].
    assert (Hset : ¬ (env !! name = None ∧ inherits name = None)).
    { intros Hnone. apply process_env_None in Hnone. congruence. }
    split; [| split; [| split]];
      first [ intros Hnull; contradiction
            | split; [intros Hnull; contradiction |];
              intros (Habsent & Hown & _); exfalso; apply Hset; split; assumption ].
  - resolvers. eff_unfold. rewrite Hread.
    apply process_env_None in Hread as [Habsent Hown].
    split; [| split; [| split]].
    + destruct soptions as [[[| |d] A]|]; simpl; split;
        try discriminate;
        try (intros (_ & _ & o & [=] & Ho); simplify_eq/=; discriminate);
        try (intros (_ & _ & o & [=])).
      * intros _. repeat split; try assumption. eexists; split; reflexivity.
      * intros _. reflexivity.
    + destruct noptions as [[[| |d'] mx mn]|]; simpl; split;
        try discriminate;
        try (intros (_ & _ & o & [=] & Ho); simplify_eq/=; discriminate);
        try (intros (_ & _ & o & [=])).
      * intros _. repeat split; try assumption. eexists; split; reflexivity.
      * intros _. reflexivity.
    + destruct soptions as [[[| |d] A]|]; simpl; try discriminate. reflexivity.
    + destruct noptions as [[[| |d'] mx mn]|]; simpl; try discriminate. reflexivity.
Qed.

(** ** White space *)

Lemma TrimStart_all_white_space (s : string) :
  all_white_space s = true → TrimStart s = "".
Proof.
  induction s as [|c rest IH]; simpl; [reflexivity |].
  destruct (isStrWhiteSpaceChar c); [exact IH | discriminate].
Qed.

Lemma TrimStart_append (ws s : string) :
  all_white_space ws = true → TrimStart (ws +:+ s) = TrimStart s.
Proof.
  induction ws as [|c rest IH]; simpl; [reflexivity |].
  destruct (isStrWhiteSpaceChar c); [exact IH | discriminate].
Qed.

Lemma parseInt_all_white_space (s : string) :
  all_white_space s = true → parseInt s = NaN.
Proof.
  intros Hs. unfold parseInt. rewrite (TrimStart_all_white_space s Hs).
  reflexivity.
Qed.

Lemma parseInt_append_white_space (ws s : string) :
  all_white_space ws = true → parseInt (ws +:+ s) = parseInt s.
Proof.
  intros Hws. unfold parseInt. rewrite (TrimStart_append ws s Hws).
  reflexivity.
Qed.

(** X13. A variable that is set to the empty string or to white space
    only is not treated as absent by the numeric resolvers: those of
    [src/lib/envUtils.ts] throw [NotANumber], whatever default and bounds
    are configured, and the one of [src/unnamed/part_000] returns NaN; the
    default is not used and nothing is emitted. *)
Theorem blank_value_is_not_a_number env name raw :
  env !! name = Some raw →
  all_white_space raw = true →
  (∀ options,
     run (EnvUtils.parseEnvAsNumberOrNull env (Some name) options)
       = (Throw (NotANumber name raw), [])
     ∧ run (EnvUtils.parseEnvAsNumber env (Some name) options)
       = (Throw (NotANumber name raw), []))
  ∧ (∀ options,
     run (Part000.parseEnvAsNumber env (Some name) options) = (Return NaN, [])).
Proof.
  intros Hpresent Hblank. resolvers. eff_unfold. present Hpresent.
  rewrite (parseInt_all_white_space raw Hblank). split.
  - intros options. split; reflexivity.
  - intros options. unfold number_lt, number_gt, NaN.
    destruct (NumberOptions.min options) as [[]|],
             (NumberOptions.max options) as [[]|]; reflexivity.
Qed.

(** X14. White space before a value does not change the number it
    resolves to: a numeric resolver returns [v] for the raw value [s]
    exactly when it returns [v] for [s] with white space in front. *)
Theorem leading_white_space_ignored env env' name (ws s : string)
    (options : NumberOptions.t) (v : number) :
  all_white_space ws = true →
  env !! name = Some s →
  env' !! name = Some (ws +:+ s) →
  (outcome (EnvUtils.parseEnvAsNumber env (Some name) (Some options)) = Return v
   ↔ outcome (EnvUtils.parseEnvAsNumber env' (Some name) (Some options)) = Return v)
  ∧ (outcome (EnvUtils.parseEnvAsNumberOrNull env (Some name) (Some options))
       = Return (Some v)
     ↔ outcome (EnvUtils.parseEnvAsNumberOrNull env' (Some name) (Some options))
       = Return (Some v))
  ∧ (outcome (Part000.parseEnvAsNumber env (Some name) options) = Return v
     ↔ outcome (Part000.parseEnvAsNumber env' (Some name) options) = Return v).
Proof.
  intros Hws Hs Hs'. resolvers. eff_unfold. present Hs. present Hs'.
  rewrite (parseInt_append_white_space ws s Hws). simpl.
  destruct (Number_isNaN (parseInt s));
    destruct (NumberOptions.min options) as [mn|];
    try destruct (number_lt (parseInt s) mn);
    destruct (NumberOptions.max options) as [mx|];
    try destruct (number_gt (parseInt s) mx);
    simpl; repeat split; intros H; try discriminate H; exact H.
Qed.

End Resolvers_further.

(** ** Decimal numerals and integer bounds *)

Ltac digit_step :=
  cbn [NilEmpty.string_of_uint digits_prefix Pos.of_uint_acc Pos.of_uint];
  match goal with |- context [radix_digit 10 ?c] =>
    let r := eval vm_compute in (radix_digit 10 c) in
    change (radix_digit 10 c) with r end;
  cbv iota beta.

Lemma digits_prefix_of_uint_acc (d : Decimal.uint) (a : positive) :
  digits_prefix 10 (Some (Zpos a)) (NilEmpty.string_of_uint d)
  = Some (Zpos (Pos.of_uint_acc d a)).
Proof.
  revert a. induction d as [|d IH|d IH|d IH|d IH|d IH|d IH|d IH|d IH|d IH|d IH];
    intros a; [reflexivity | ..];
    digit_step;
    match goal with |- digits_prefix 10 (Some ?z) _ = Some (Zpos (Pos.of_uint_acc d ?q)) =>
      replace z with (Zpos q) by (simpl; lia) end;
    apply IH.
Qed.

Lemma digits_prefix_of_uint (d : Decimal.uint) :
  digits_prefix 10 (Some 0) (NilEmpty.string_of_uint d)
  = Some (Z.of_N (Pos.of_uint d))
  ∧ (d ≠ Decimal.Nil →
     digits_prefix 10 None (NilEmpty.string_of_uint d)
     = Some (Z.of_N (Pos.of_uint d))).
Proof.
  induction d as [|d IH|d IH|d IH|d IH|d IH|d IH|d IH|d IH|d IH|d IH];
    [split; [reflexivity | intros H; contradiction] | ..];
    (split; [| intros _]);
    digit_step; simpl default;
    first [ exact (proj1 IH) | apply digits_prefix_of_uint_acc ].
Qed.

Lemma string_of_uint_body (d : Decimal.uint) :
  d ≠ Decimal.Nil →
  sign_and_body (NilEmpty.string_of_uint d) = (false, NilEmpty.string_of_uint d)
  ∧ sign_and_body (String "-" (NilEmpty.string_of_uint d))
    = (true, NilEmpty.string_of_uint d)
  ∧ hex_body (NilEmpty.string_of_uint d) = None.
Proof.
  intros Hd. destruct d as [|d|d|d|d|d|d|d|d|d|d]; [contradiction | ..];
    (split; [reflexivity | split; [reflexivity |]]); try reflexivity.
  destruct d; reflexivity.
Qed.

Lemma parseInt_decimal (z : Z) : parseInt (decimal z) = Number_of_Z z.
Proof.
  rewrite parseInt_prefix. unfold decimal, Z.to_int.
  destruct z as [|p|p]; [reflexivity | |];
    cbn [NilZero.string_of_int]; unfold NilZero.string_of_uint;
    pose proof (Unsigned.to_uint_nonnil p) as Hnil;
    destruct (string_of_uint_body (Pos.to_uint p) Hnil) as (Hpos & Hneg & Hhex);
    pose proof (proj2 (digits_prefix_of_uint (Pos.to_uint p)) Hnil) as Hdigits;
    rewrite Unsigned.of_to in Hdigits;
    destruct (Pos.to_uint p) eqn:E; try contradiction;
    rewrite <- E in *.
  all: first [rewrite Hpos | rewrite Hneg]; rewrite Hhex, Hdigits; reflexivity.
Qed.

Lemma digits2_pos_upper (p : positive) : Zpos p < 2 ^ Zpos (digits2_pos p).
Proof.
  induction p as [p IH|p IH|]; simpl digits2_pos;
    [rewrite Pos2Z.inj_succ, Z.pow_succ_r by lia; lia
    |rewrite Pos2Z.inj_succ, Z.pow_succ_r by lia; lia
    |simpl; lia].
Qed.

Lemma binary_round_canonical (s : bool) (p : positive) :
  Zpos p < 2 ^ 53 →
  binary_round 53 1024 s p 0
  = S754_finite s (Pos.shiftl p (Z.to_N (53 - Zpos (digits2_pos p))))
      (Zpos (digits2_pos p) - 53).
Proof.
  intros Hp. pose proof (digits2_pos_le_53 p Hp) as Hd.
  unfold binary_round, shl_align.
  match goal with |- context [match ?d with Zneg _ => _ | _ => _ end] =>
    assert (Hd' : d = Zpos (digits2_pos p) - 53) by (unfold fexp, emin; lia);
    rewrite Hd'
  end.
  match goal with |- context [(_, fexp ?a ?b ?c)] =>
    assert (Hf : fexp a b c = Zpos (digits2_pos p) - 53) by (unfold fexp, emin; lia);
    rewrite Hf
  end.
  destruct (Zpos (digits2_pos p) - 53) as [|k|k] eqn:Ek; [| lia |].
  - rewrite binary_round_aux_exact by lia.
    replace (53 - Zpos (digits2_pos p)) with 0 by lia. reflexivity.
  - rewrite binary_round_aux_exact.
    + replace (53 - Zpos (digits2_pos p)) with (Zpos k) by lia. reflexivity.
    + rewrite digits2_pos_iter_xO. lia.
    + lia.
Qed.

Lemma Zpos_shiftl (p : positive) (n : N) : Zpos (Pos.shiftl p n) = Zpos p * 2 ^ Z.of_N n.
Proof.
  destruct n as [|k]; unfold Pos.shiftl.
  - change (2 ^ Z.of_N 0) with 1. lia.
  - apply Zpos_iter_xO.
Qed.

Lemma compare_canonical (p q : positive) :
  Zpos p < 2 ^ 53 → Zpos q < 2 ^ 53 →
  match Zpos (digits2_pos p) - 53 ?= Zpos (digits2_pos q) - 53 with
  | Lt => Lt
  | Gt => Gt
  | Eq => Pos.compare_cont Eq
            (Pos.shiftl p (Z.to_N (53 - Zpos (digits2_pos p))))
            (Pos.shiftl q (Z.to_N (53 - Zpos (digits2_pos q))))
  end = (Zpos p ?= Zpos q).
Proof.
  intros Hp Hq.
  pose proof (digits2_pos_lower p). pose proof (digits2_pos_upper p).
  pose proof (digits2_pos_lower q). pose proof (digits2_pos_upper q).
  destruct (Z.compare_spec (Zpos (digits2_pos p) - 53) (Zpos (digits2_pos q) - 53))
    as [He|He|He].
  - assert (Hdd : digits2_pos p = digits2_pos q) by lia. rewrite Hdd.
    change (Pos.compare_cont Eq ?a ?b) with (Pos.compare a b).
    rewrite Pos2Z.inj_compare, !Zpos_shiftl.
    match goal with |- context [2 ^ ?n] =>
      assert (Hpow : 0 < 2 ^ n) by (apply Z.pow_pos_nonneg; lia);
      generalize dependent (2 ^ n)
    end.
    intros c Hc.
    destruct (Z.compare_spec (Zpos p) (Zpos q));
      destruct (Z.compare_spec (Zpos p * c) (Zpos q * c));
      try reflexivity; nia.
  - symmetry. apply Z.compare_lt_iff.
    assert (2 ^ Zpos (digits2_pos p) <= 2 ^ (Zpos (digits2_pos q) - 1))
      by (apply Z.pow_le_mono_r; lia).
    lia.
  - symmetry. apply Z.compare_gt_iff.
    assert (2 ^ Zpos (digits2_pos q) <= 2 ^ (Zpos (digits2_pos p) - 1))
      by (apply Z.pow_le_mono_r; lia).
    lia.
Qed.

Lemma SFcompare_Number_of_Z (a b : Z) :
  Z.abs a < 2 ^ 53 → Z.abs b < 2 ^ 53 →
  SFcompare (Number_of_Z a) (Number_of_Z b) = Some (a ?= b).
Proof.
  intros Ha Hb. unfold Number_of_Z, binary_normalize.
  destruct a as [|p|p], b as [|q|q]; try reflexivity;
    rewrite ?binary_round_canonical by lia; try reflexivity.
  - simpl SFcompare. rewrite compare_canonical by lia. reflexivity.
  - simpl SFcompare.
    pose proof (compare_canonical p q ltac:(lia) ltac:(lia)) as Hc.
    change (Z.neg p ?= Z.neg q) with (CompOpp (Zpos p ?= Zpos q)).
    rewrite <- Hc.
    destruct (Zpos (digits2_pos p) - 53 ?= Zpos (digits2_pos q) - 53); reflexivity.
Qed.

Lemma number_lt_Number_of_Z (a b : Z) :
  Z.abs a < 2 ^ 53 → Z.abs b < 2 ^ 53 →
  number_lt (Number_of_Z a) (Number_of_Z b) = (a <? b)
  ∧ number_gt (Number_of_Z a) (Number_of_Z b) = (b <? a).
Proof.
  intros Ha Hb. unfold number_lt, number_gt, SFltb.
  rewrite !SFcompare_Number_of_Z by assumption.
  unfold Z.ltb. split; reflexivity.
Qed.

Lemma Number_of_Z_isNaN (z : Z) : Number_isNaN (Number_of_Z z) = false.
Proof.
  pose proof (Number_of_Z_not_NaN z) as H.
  destruct (Number_of_Z z); try reflexivity. contradiction.
Qed.

Section Integers.
Context {toStr : NumberToString}.
Implicit Types (env : gmap string string) (name : string).

(** X15. Printing then parsing gives the integer back: a variable set to
    the decimal numeral of an integer [z], with no bound configured,
    resolves to the Number for [z], for every [z]. *)
Theorem decimal_numeral_resolves_to_integer env name (z : Z) :
  env !! name = Some (decimal z) →
  parseInt (decimal z) = Number_of_Z z
  ∧ run (EnvUtils.parseEnvAsNumber env (Some name) None)
    = (Return (Number_of_Z z), [])
  ∧ run (EnvUtils.parseEnvAsNumberOrNull env (Some name) None)
    = (Return (Some (Number_of_Z z)), [])
  ∧ (∀ d, run (Part000.parseEnvAsNumber env (Some name)
                 {| NumberOptions.defaultValue := d;
                    NumberOptions.max := None; NumberOptions.min := None |})
          = (Return (Number_of_Z z), [])).
Proof.
  intros Hpresent. split; [apply parseInt_decimal |].
  unfold EnvUtils.parseEnvAsNumber, EnvUtils.parseEnvAsNumberOrNull,
    Part000.parseEnvAsNumber, number_eq_null.
  eff_unfold. present Hpresent; rewrite parseInt_decimal. simpl.
  rewrite Number_of_Z_isNaN. repeat split; reflexivity.
Qed.

(** X16. On integers below 2^53 in magnitude the bounds are those of the
    integers and are inclusive: a variable set to the decimal numeral of
    [n] fails with [BelowMinimum] when a minimum [l] is configured and
    [n < l], else with [AboveMaximum] when a maximum [h] is configured and
    [h < n], and else resolves to [n], which the returned Number holds. *)
Theorem integer_bounds_are_inclusive env name (n : Z) (lo hi : option Z)
    (d : optional number) :
  env !! name = Some (decimal n) →
  Z.abs n < 2 ^ 53 →
  (∀ l, lo = Some l → Z.abs l < 2 ^ 53) →
  (∀ h, hi = Some h → Z.abs h < 2 ^ 53) →
  let options := {| NumberOptions.defaultValue := d;
                    NumberOptions.max := Number_of_Z <$> hi;
                    NumberOptions.min := Number_of_Z <$> lo |} in
  let above :=
    match hi with
    | Some h =>
        if h <? n
        then (Throw (AboveMaximum name (decimal n) (Number_of_Z h)), [])
        else (Return (Number_of_Z n), [])
    | None => (Return (Number_of_Z n), [])
    end in
  let expected :=
    match lo with
    | Some l =>
        if n <? l
        then (Throw (BelowMinimum name (decimal n) (Number_of_Z l)), [])
        else above
    | None => above
    end in
  run (EnvUtils.parseEnvAsNumber env (Some name) (Some options)) = expected
  ∧ run (Part000.parseEnvAsNumber env (Some name) options) = expected
  ∧ Z_of_number (Number_of_Z n) = Some n.
Proof.
  intros Hpresent Hn Hlo Hhi options above expected.
  split; [| split; [| apply Number_of_Z_exact; exact Hn]].
  all: subst options above expected;
    unfold EnvUtils.parseEnvAsNumber, EnvUtils.parseEnvAsNumberOrNull,
      Part000.parseEnvAsNumber, number_eq_null;
    eff_unfold; present Hpresent; rewrite parseInt_decimal; simpl;
    rewrite ?Number_of_Z_isNaN;
    destruct lo as [l|], hi as [h|]; simpl;
    try (destruct (number_lt_Number_of_Z n l Hn (Hlo l eq_refl)) as [-> _]);
    try (destruct (number_lt_Number_of_Z n h Hn (Hhi h eq_refl)) as [_ ->]);
    try destruct (n <? l); try destruct (h <? n); reflexivity.
Qed.

End Integers.

(** ** The further properties on concrete inputs *)

Lemma production_env_port_is_a_number :
  ∀ raw, production_env !! "PORT" = Some raw → Number_isNaN (parseInt raw) = false.
Proof. intros raw H. vm_compute in H. injection H as <-. reflexivity. Qed.

(** A production environment without [SERVER_HOST] and [FROM_EMAIL]. *)
Lemma constructor_resolves_fields_witness :
  production_env !! "SESSION_SECRET" = Some "abc123"
  ∧ production_env !! "NODE_ENV" = Some "production"
  ∧ ("production" ∈ VALID_NODE_ENV)
  ∧ EnvUtilsClass.constructor (toStr := integer_toString)
      production_env local_defaults None
    = (Return {| PartialEnv.logger_level := "debug";
                 PartialEnv._nodeEnv := "production";
                 PartialEnv._port := Number_of_Z 3000;
                 PartialEnv._sessionSecret := "abc123";
                 PartialEnv._serverHost := "localhost";
                 PartialEnv._fromEmail := "noreply@example.org" |},
       [DEFAULT_USED "SERVER_HOST" "localhost";
        DEFAULT_USED "FROM_EMAIL" "noreply@example.org"]).
Proof.
  assert (H1 : production_env !! "SESSION_SECRET" = Some "abc123") by reflexivity.
  assert (H2 : production_env !! "NODE_ENV" = Some "production") by reflexivity.
  assert (H3 : "production" ∈ VALID_NODE_ENV) by compute_done.
  split; [exact H1 | split; [exact H2 | split; [exact H3 |]]].
  rewrite (constructor_resolves_fields (toStr := integer_toString)
             production_env local_defaults None _ _ H1 H2 H3
             production_env_port_is_a_number).
  reflexivity.
Defined.

(** No secret; no [NODE_ENV]; an invalid [NODE_ENV] with an unparsable
    [PORT]; a valid [NODE_ENV] with an unparsable [PORT]. *)
Lemma constructor_fails_fast_witness :
  EnvUtilsClass.constructor (toStr := integer_toString) ∅ local_defaults None
    = (Throw (MissingRequiredVariable "SESSION_SECRET"), [])
  ∧ EnvUtilsClass.constructor (toStr := integer_toString)
      {[ "SESSION_SECRET" := "abc123" ]} local_defaults None
    = (Throw (MissingRequiredVariable "NODE_ENV"), [])
  ∧ EnvUtilsClass.constructor (toStr := integer_toString)
      staging_env local_defaults None
    = (Throw (InvalidValue "staging"), [UNSUPPORTED_VALUE "staging"])
  ∧ EnvUtilsClass.constructor (toStr := integer_toString)
      unparsable_port_env local_defaults None
    = (Throw (NotANumber "PORT" "abc"), []).
Proof.
  split; [| split; [| split]].
  - apply (constructor_fails_fast (toStr := integer_toString) ∅ local_defaults None).
    reflexivity.
  - apply (proj1 (proj2 (constructor_fails_fast (toStr := integer_toString)
                           {[ "SESSION_SECRET" := "abc123" ]} local_defaults None))
             "abc123"); reflexivity.
  - apply (proj1 (proj2 (proj2 (constructor_fails_fast (toStr := integer_toString)
                                  staging_env local_defaults None)))
             "abc123" "staging"); [reflexivity | reflexivity | compute_done].
  - apply (proj2 (proj2 (proj2 (constructor_fails_fast (toStr := integer_toString)
                                  unparsable_port_env local_defaults None)))
             "abc123" "test" "abc");
      [reflexivity | reflexivity | compute_done | reflexivity | reflexivity].
Defined.

(** The object made from the production environment. *)
Lemma constructed_object_valid_witness :
  ∃ this log,
    EnvUtilsClass.constructor (toStr := integer_toString)
      production_env local_defaults (Some "info") = (Return this, log)
    ∧ PartialEnv.nodeEnv this ∈ VALID_NODE_ENV
    ∧ PartialEnv.port this = Number_of_Z 3000
    ∧ PartialEnv.logger_level this = "info"
    ∧ length log = 2%nat.
Proof.
  destruct (EnvUtilsClass.constructor (toStr := integer_toString)
              production_env local_defaults (Some "info")) as [[this|e|o] log] eqn:E;
    [| vm_compute in E; discriminate E ..].
  exists this, log.
  destruct (constructed_object_valid (toStr := integer_toString) _ _ _ _ _ E)
    as (_ & _ & Hvalid & Hport & _ & _ & _ & _ & Hlog).
  split; [reflexivity |]. split; [exact Hvalid |].
  split; [rewrite Hport; reflexivity |].
  vm_compute in E. injection E as <- <-. split; reflexivity.
Defined.

(** The failure on the environment with [NODE_ENV] set to ["staging"]. *)
Lemma failed_construction_is_silent_witness :
  EnvUtilsClass.constructor (toStr := integer_toString)
    staging_env local_defaults None
  = (Throw (InvalidValue "staging"), [UNSUPPORTED_VALUE "staging"])
  ∧ ((InvalidValue "staging" = MissingRequiredVariable "SESSION_SECRET"
      ∧ [UNSUPPORTED_VALUE "staging"] = [])
     ∨ (InvalidValue "staging" = MissingRequiredVariable "NODE_ENV"
        ∧ [UNSUPPORTED_VALUE "staging"] = [])
     ∨ (∃ node_env, staging_env !! "NODE_ENV" = Some node_env
          ∧ InvalidValue "staging" = InvalidValue node_env
          ∧ [UNSUPPORTED_VALUE "staging"] = [UNSUPPORTED_VALUE node_env])
     ∨ (∃ raw, staging_env !! "PORT" = Some raw
          ∧ InvalidValue "staging" = NotANumber "PORT" raw
          ∧ [UNSUPPORTED_VALUE "staging"] = [])).
Proof.
  assert (E : EnvUtilsClass.constructor (toStr := integer_toString)
                staging_env local_defaults None
              = (Throw (InvalidValue "staging"), [UNSUPPORTED_VALUE "staging"]))
    by reflexivity.
  split; [exact E |].
  exact (failed_construction_is_silent (toStr := integer_toString) _ _ _ _ _ E).
Defined.

(** [PORT] set to ["abc"]: the other constructor returns an object whose
    port is NaN. *)
Lemma part_000_constructor_accepts_any_port_witness :
  unparsable_port_env !! "SESSION_SECRET" = Some "abc123"
  ∧ unparsable_port_env !! "NODE_ENV" = Some "test"
  ∧ ("test" ∈ VALID_NODE_ENV)
  ∧ ∃ this log,
      Part000Class.constructor (toStr := integer_toString)
        unparsable_port_env local_defaults None = (Return this, log)
      ∧ PartialEnv.port this = NaN.
Proof.
  assert (H1 : unparsable_port_env !! "SESSION_SECRET" = Some "abc123") by reflexivity.
  assert (H2 : unparsable_port_env !! "NODE_ENV" = Some "test") by reflexivity.
  assert (H3 : "test" ∈ VALID_NODE_ENV) by compute_done.
  split; [exact H1 | split; [exact H2 | split; [exact H3 |]]].
  eexists _, _.
  split; [apply (part_000_constructor_accepts_any_port (toStr := integer_toString)
                   _ local_defaults None _ _ H1 H2 H3) |].
  reflexivity.
Defined.

(** The two constructors on the production environment. *)
Lemma constructors_agree_witness :
  (∀ raw, production_env !! "PORT" = Some raw → Number_isNaN (parseInt raw) = false)
  ∧ EnvUtilsClass.constructor (toStr := integer_toString)
      production_env local_defaults None
    = Part000Class.constructor (toStr := integer_toString)
        production_env local_defaults None.
Proof.
  split; [exact production_env_port_is_a_number |].
  apply (constructors_agree (toStr := integer_toString)).
  exact production_env_port_is_a_number.
Defined.

(** [PORT] set to ["3000"], with the default 8080 or with none. *)
Lemma present_value_overrides_default_witness :
  production_env !! "PORT" = Some "3000"
  ∧ run (EnvUtils.parseEnvAsNumber (toStr := integer_toString) production_env
           (Some "PORT")
           (Some {| NumberOptions.defaultValue := value (Number_of_Z 8080);
                    NumberOptions.max := None; NumberOptions.min := None |}))
    = run (EnvUtils.parseEnvAsNumber (toStr := integer_toString) production_env
             (Some "PORT")
             (Some {| NumberOptions.defaultValue := undefined;
                      NumberOptions.max := None; NumberOptions.min := None |})).
Proof.
  assert (H1 : production_env !! "PORT" = Some "3000") by reflexivity.
  split; [exact H1 |].
  destruct (present_value_overrides_default (toStr := integer_toString)
              production_env "PORT" "3000" H1) as (_ & Hn).
  destruct (Hn (value (Number_of_Z 8080)) undefined None None) as (_ & Hw & _).
  exact Hw.
Defined.

(** [SERVER_HOST] absent: with the default ["localhost"] the two versions
    do the same; with the default [null] only one of them warns. *)
Lemma string_versions_agree_witness :
  production_env !! "SERVER_HOST" = None
  ∧ inherits "SERVER_HOST" = None
  ∧ run (EnvUtils.parseEnvAsString production_env (Some "SERVER_HOST")
           (Some {| StringOptions.defaultValue := value "localhost";
                    StringOptions.allowed := None |}))
    = run (Part000.parseEnvAsString production_env (Some "SERVER_HOST")
             (Some {| StringOptions.defaultValue := value "localhost";
                      StringOptions.allowed := None |}))
  ∧ run (EnvUtils.parseEnvAsString production_env (Some "SERVER_HOST")
           (Some {| StringOptions.defaultValue := null;
                    StringOptions.allowed := None |}))
    = (Throw (MissingRequiredVariable "SERVER_HOST"),
       [DEFAULT_USED "SERVER_HOST" "null"])
  ∧ run (Part000.parseEnvAsString production_env (Some "SERVER_HOST")
           (Some {| StringOptions.defaultValue := null;
                    StringOptions.allowed := None |}))
    = (Throw (MissingRequiredVariable "SERVER_HOST"), []).
Proof.
  assert (H1 : production_env !! "SERVER_HOST" = None) by reflexivity.
  assert (H2 : inherits "SERVER_HOST" = None) by reflexivity.
  split; [exact H1 | split; [exact H2 |]].
  destruct (string_versions_agree production_env (Some "SERVER_HOST")
              (Some {| StringOptions.defaultValue := value "localhost";
                       StringOptions.allowed := None |})) as (_ & Hsame & _).
  destruct (string_versions_agree production_env (Some "SERVER_HOST")
              (Some {| StringOptions.defaultValue := null;
                       StringOptions.allowed := None |})) as (_ & _ & Hnull).
  split; [| exact (Hnull "SERVER_HOST" None eq_refl H1 H2 eq_refl)].
  apply Hsame. intros name o [= <-] _ _ [= <-]. discriminate.
Defined.

(** [PORT] set to ["3000"] with bounds. *)
Lemma numeric_versions_agree_on_numbers_witness :
  (∀ name valueStr, Some "PORT" = Some name →
     process_env production_env name = Some valueStr →
     Number_isNaN (parseInt (ToString valueStr)) = false)
  ∧ run (EnvUtils.parseEnvAsNumber (toStr := integer_toString) production_env
           (Some "PORT")
           (Some {| NumberOptions.defaultValue := value (Number_of_Z 8080);
                    NumberOptions.max := Some (Number_of_Z 65535);
                    NumberOptions.min := Some (Number_of_Z 1) |}))
    = run (Part000.parseEnvAsNumber (toStr := integer_toString) production_env
             (Some "PORT")
             {| NumberOptions.defaultValue := value (Number_of_Z 8080);
                NumberOptions.max := Some (Number_of_Z 65535);
                NumberOptions.min := Some (Number_of_Z 1) |}).
Proof.
  assert (H1 : ∀ name valueStr, Some "PORT" = Some name →
                 process_env production_env name = Some valueStr →
                 Number_isNaN (parseInt (ToString valueStr)) = false).
  { intros name valueStr [= <-] H. vm_compute in H. injection H as <-. reflexivity. }
  split; [exact H1 |].
  destruct (numeric_versions_agree_on_numbers (toStr := integer_toString)
              production_env (Some "PORT")
              {| NumberOptions.defaultValue := value (Number_of_Z 8080);
                 NumberOptions.max := Some (Number_of_Z 65535);
                 NumberOptions.min := Some (Number_of_Z 1) |} H1) as (_ & Hrun).
  apply Hrun. discriminate.
Defined.

(** [PORT] set to ["3000"] with the bounds 1 and 65535. *)
Lemma returned_number_within_bounds_witness :
  production_env !! "PORT" = Some "3000"
  ∧ run (EnvUtils.parseEnvAsNumber (toStr := integer_toString) production_env
           (Some "PORT")
           (Some {| NumberOptions.defaultValue := undefined;
                    NumberOptions.max := Some (Number_of_Z 65535);
                    NumberOptions.min := Some (Number_of_Z 1) |}))
    = (Return (Number_of_Z 3000), [])
  ∧ number_lt (Number_of_Z 3000) (Number_of_Z 1) = false
  ∧ number_gt (Number_of_Z 3000) (Number_of_Z 65535) = false
  ∧ Number_isNaN (Number_of_Z 3000) = false.
Proof.
  assert (H1 : production_env !! "PORT" = Some "3000") by reflexivity.
  assert (H2 : run (EnvUtils.parseEnvAsNumber (toStr := integer_toString)
                      production_env (Some "PORT")
                      (Some {| NumberOptions.defaultValue := undefined;
                               NumberOptions.max := Some (Number_of_Z 65535);
                               NumberOptions.min := Some (Number_of_Z 1) |}))
                = (Return (Number_of_Z 3000), [])) by reflexivity.
  split; [exact H1 | split; [exact H2 |]].
  destruct (returned_number_within_bounds (toStr := integer_toString)
              production_env "PORT" "3000" _ _ _ H1 (or_introl H2))
    as (_ & _ & Hmin & Hmax & Hnum).
  split; [exact (Hmin _ eq_refl) |].
  split; [exact (Hmax _ eq_refl) | exact (Hnum (or_introl H2))].
Defined.

(** [SERVER_HOST] absent with the default [null]. *)
Lemma null_only_from_null_default_witness :
  outcome (EnvUtils.parseEnvAsStringOrNull production_env (Some "SERVER_HOST")
             (Some {| StringOptions.defaultValue := null;
                      StringOptions.allowed := None |})) = Return None
  ∧ production_env !! "SERVER_HOST" = None
  ∧ inherits "SERVER_HOST" = None
  ∧ run (EnvUtils.parseEnvAsString production_env (Some "SERVER_HOST")
           (Some {| StringOptions.defaultValue := null;
                    StringOptions.allowed := None |}))
    = (Throw (MissingRequiredVariable "SERVER_HOST"),
       [DEFAULT_USED "SERVER_HOST" "null"]).
Proof.
  assert (H1 : outcome (EnvUtils.parseEnvAsStringOrNull production_env
                          (Some "SERVER_HOST")
                          (Some {| StringOptions.defaultValue := null;
                                   StringOptions.allowed := None |}))
               = Return None) by reflexivity.
  destruct (null_only_from_null_default (toStr := integer_toString)
              production_env "SERVER_HOST"
              (Some {| StringOptions.defaultValue := null;
                       StringOptions.allowed := None |}) None)
    as (Hiff & _ & Hthrow & _).
  split; [exact H1 |].
  split; [exact (proj1 (proj1 Hiff H1)) |].
  split; [exact (proj1 (proj2 (proj1 Hiff H1))) | exact (Hthrow H1)].
Defined.

(** [PORT] set to two spaces, with a default. *)
Lemma blank_value_is_not_a_number_witness :
  ({[ "PORT" := "  " ]} : gmap string string) !! "PORT" = Some "  "
  ∧ all_white_space "  " = true
  ∧ run (EnvUtils.parseEnvAsNumber (toStr := integer_toString)
           {[ "PORT" := "  " ]} (Some "PORT")
           (Some {| NumberOptions.defaultValue := value (Number_of_Z 8080);
                    NumberOptions.max := None; NumberOptions.min := None |}))
    = (Throw (NotANumber "PORT" "  "), []).
Proof.
  assert (H1 : ({[ "PORT" := "  " ]} : gmap string string) !! "PORT" = Some "  ")
    by apply lookup_singleton_eq.
  assert (H2 : all_white_space "  " = true) by reflexivity.
  split; [exact H1 | split; [exact H2 |]].
  destruct (blank_value_is_not_a_number (toStr := integer_toString) _ _ _ H1 H2)
    as (Hthrow & _).
  exact (proj2 (Hthrow _)).
Defined.

(** [PORT] set to ["3000"] and to [" 3000"]. *)
Lemma leading_white_space_ignored_witness :
  all_white_space " " = true
  ∧ production_env !! "PORT" = Some "3000"
  ∧ ({[ "PORT" := " 3000" ]} : gmap string string) !! "PORT" = Some (" " +:+ "3000")
  ∧ outcome (EnvUtils.parseEnvAsNumber (toStr := integer_toString)
               {[ "PORT" := " 3000" ]} (Some "PORT")
               (Some {| NumberOptions.defaultValue := undefined;
                        NumberOptions.max := Some (Number_of_Z 65535);
                        NumberOptions.min := Some (Number_of_Z 1) |}))
    = Return (Number_of_Z 3000).
Proof.
  assert (H1 : all_white_space " " = true) by reflexivity.
  assert (H2 : production_env !! "PORT" = Some "3000") by reflexivity.
  assert (H3 : ({[ "PORT" := " 3000" ]} : gmap string string) !! "PORT"
               = Some (" " +:+ "3000")) by apply lookup_singleton_eq.
  split; [exact H1 | split; [exact H2 | split; [exact H3 |]]].
  destruct (leading_white_space_ignored (toStr := integer_toString)
              production_env {[ "PORT" := " 3000" ]} "PORT" " " "3000"
              {| NumberOptions.defaultValue := undefined;
                 NumberOptions.max := Some (Number_of_Z 65535);
                 NumberOptions.min := Some (Number_of_Z 1) |}
              (Number_of_Z 3000) H1 H2 H3) as (Hiff & _).
  apply (proj1 Hiff). reflexivity.
Defined.

(** [PORT] set to the numeral of -42. *)
Lemma decimal_numeral_resolves_to_integer_witness :
  ({[ "PORT" := "-42" ]} : gmap string string) !! "PORT" = Some (decimal (-42))
  ∧ run (EnvUtils.parseEnvAsNumber (toStr := integer_toString)
           {[ "PORT" := "-42" ]} (Some "PORT") None)
    = (Return (Number_of_Z (-42)), []).
Proof.
  assert (H1 : ({[ "PORT" := "-42" ]} : gmap string string) !! "PORT"
               = Some (decimal (-42))) by apply lookup_singleton_eq.
  split; [exact H1 |].
  destruct (decimal_numeral_resolves_to_integer (toStr := integer_toString)
              _ "PORT" (-42) H1) as (_ & Hw & _).
  exact Hw.
Defined.

(** [PORT] set to ["65535"] and to ["65536"] with the bounds 1 and 65535:
    the maximum itself is accepted. *)
Lemma integer_bounds_are_inclusive_witness :
  ({[ "PORT" := "65535" ]} : gmap string string) !! "PORT" = Some (decimal 65535)
  ∧ Z.abs 65535 < 2 ^ 53
  ∧ run (EnvUtils.parseEnvAsNumber (toStr := integer_toString)
           {[ "PORT" := "65535" ]} (Some "PORT")
           (Some {| NumberOptions.defaultValue := undefined;
                    NumberOptions.max := Some (Number_of_Z 65535);
                    NumberOptions.min := Some (Number_of_Z 1) |}))
    = (Return (Number_of_Z 65535), [])
  ∧ run (EnvUtils.parseEnvAsNumber (toStr := integer_toString)
           {[ "PORT" := "65536" ]} (Some "PORT")
           (Some {| NumberOptions.defaultValue := undefined;
                    NumberOptions.max := Some (Number_of_Z 65535);
                    NumberOptions.min := Some (Number_of_Z 1) |}))
    = (Throw (AboveMaximum (toStr := integer_toString) "PORT" "65536"
                (Number_of_Z 65535)), []).
Proof.
  assert (H1 : ({[ "PORT" := "65535" ]} : gmap string string) !! "PORT"
               = Some (decimal 65535)) by apply lookup_singleton_eq.
  assert (H1' : ({[ "PORT" := "65536" ]} : gmap string string) !! "PORT"
                = Some (decimal 65536)) by apply lookup_singleton_eq.
  assert (H2 : Z.abs 65535 < 2 ^ 53) by reflexivity.
  assert (H2' : Z.abs 65536 < 2 ^ 53) by reflexivity.
  assert (Hlo : ∀ l, Some 1 = Some l → Z.abs l < 2 ^ 53)
    by (intros l [= <-]; reflexivity).
  assert (Hhi : ∀ h, Some 65535 = Some h → Z.abs h < 2 ^ 53)
    by (intros h [= <-]; reflexivity).
  split; [exact H1 | split; [exact H2 |]].
  destruct (integer_bounds_are_inclusive (toStr := integer_toString)
              _ "PORT" 65535 (Some 1) (Some 65535) undefined H1 H2 Hlo Hhi)
    as (Hin & _).
  destruct (integer_bounds_are_inclusive (toStr := integer_toString)
              _ "PORT" 65536 (Some 1) (Some 65535) undefined H1' H2' Hlo Hhi)
    as (Hout & _).
  split; [exact Hin | exact Hout].
Defined.

(** ** Text after a numeral, and the variables a construction reads *)

Lemma digits_prefix_no_digit (R : Z) (acc : option Z) (rest : string) :
  leading_digits R rest = [] → digits_prefix R acc rest = acc.
Proof. intros H. rewrite digits_prefix_leading_digits, H. reflexivity. Qed.

Ltac digit_step' :=
  cbn [NilEmpty.string_of_uint];
  change (String ?c ?s +:+ ?r) with (String c (s +:+ r));
  cbn [digits_prefix Pos.of_uint_acc Pos.of_uint];
  match goal with |- context [radix_digit 10 ?c] =>
    let r := eval vm_compute in (radix_digit 10 c) in
    change (radix_digit 10 c) with r end;
  cbv iota beta.

Lemma digits_prefix_of_uint_acc_append (d : Decimal.uint) (a : positive) (rest : string) :
  leading_digits 10 rest = [] →
  digits_prefix 10 (Some (Zpos a)) (NilEmpty.string_of_uint d +:+ rest)
  = Some (Zpos (Pos.of_uint_acc d a)).
Proof.
  intros Hrest.
  revert a. induction d as [|d IH|d IH|d IH|d IH|d IH|d IH|d IH|d IH|d IH|d IH];
    intros a; [apply (digits_prefix_no_digit 10 _ rest Hrest) | ..];
    digit_step';
    match goal with |- digits_prefix 10 (Some ?z) _ = Some (Zpos (Pos.of_uint_acc d ?q)) =>
      replace z with (Zpos q) by (simpl; lia) end;
    apply IH.
Qed.

Lemma digits_prefix_of_uint_append (d : Decimal.uint) (rest : string) :
  leading_digits 10 rest = [] →
  digits_prefix 10 (Some 0) (NilEmpty.string_of_uint d +:+ rest)
  = Some (Z.of_N (Pos.of_uint d))
  ∧ (d ≠ Decimal.Nil →
     digits_prefix 10 None (NilEmpty.string_of_uint d +:+ rest)
     = Some (Z.of_N (Pos.of_uint d))).
Proof.
  intros Hrest.
  induction d as [|d IH|d IH|d IH|d IH|d IH|d IH|d IH|d IH|d IH|d IH];
    [split; [apply (digits_prefix_no_digit 10 _ rest Hrest) | intros H; contradiction] | ..];
    (split; [| intros _]);
    digit_step'; simpl default;
    first [ exact (proj1 IH) | apply digits_prefix_of_uint_acc_append, Hrest ].
Qed.

Lemma nzhead_not_D0 (u d : Decimal.uint) : Decimal.nzhead u ≠ Decimal.D0 d.
Proof. induction u; simpl; try discriminate; assumption. Qed.

Lemma to_uint_not_D0 (p : positive) (d : Decimal.uint) : Pos.to_uint p ≠ Decimal.D0 d.
Proof.
  intros E.
  pose proof (Unsigned.to_of (Pos.to_uint p)) as Hnorm.
  rewrite Unsigned.of_to in Hnorm. simpl in Hnorm.
  rewrite E in Hnorm. rewrite unorm_D0 in Hnorm.
  unfold Decimal.unorm in Hnorm.
  destruct (Decimal.nzhead d) eqn:En; try discriminate.
  - injection Hnorm as ->. apply (Unsigned.to_uint_nonzero p). exact E.
  - apply (nzhead_not_D0 d u). rewrite En. congruence.
Qed.

Lemma numeral_body (d : Decimal.uint) (rest : string) :
  d ≠ Decimal.Nil → (∀ d', d ≠ Decimal.D0 d') →
  sign_and_body (NilEmpty.string_of_uint d +:+ rest)
    = (false, NilEmpty.string_of_uint d +:+ rest)
  ∧ sign_and_body (String "-" (NilEmpty.string_of_uint d) +:+ rest)
    = (true, NilEmpty.string_of_uint d +:+ rest)
  ∧ hex_body (NilEmpty.string_of_uint d +:+ rest) = None.
Proof.
  intros Hd H0. destruct d as [|d|d|d|d|d|d|d|d|d|d];
    [contradiction | exfalso; exact (H0 d eq_refl) | ..];
    repeat split; reflexivity.
Qed.

Lemma parseInt_decimal_append (z : Z) (rest : string) :
  leading_digits 10 rest = [] →
  (z = 0 → starts_with "x" rest || starts_with "X" rest = false) →
  parseInt (decimal z +:+ rest) = Number_of_Z z.
Proof.
  intros Hrest Hx. rewrite parseInt_prefix. unfold decimal, Z.to_int.
  destruct z as [|p|p].
  - change (NilZero.string_of_int (Decimal.Pos Decimal.zero) +:+ rest)
      with (String "0" rest).
    change (sign_and_body (String "0" rest)) with (false, String "0" rest).
    cbv iota beta. rewrite hex_body_starts_with.
    change (starts_with "0x" (String "0" rest)) with (starts_with "x" rest).
    change (starts_with "0X" (String "0" rest)) with (starts_with "X" rest).
    rewrite (Hx eq_refl).
    cbn [digits_prefix]. change (radix_digit 10 "0") with (Some 0). cbv iota beta.
    rewrite digits_prefix_no_digit by exact Hrest. reflexivity.
  - cbn [NilZero.string_of_int]. unfold NilZero.string_of_uint.
    pose proof (Unsigned.to_uint_nonnil p) as Hnil.
    pose proof (to_uint_not_D0 p) as Hnz.
    destruct (numeral_body (Pos.to_uint p) rest Hnil Hnz) as (Hpos & _ & Hhex).
    pose proof (proj2 (digits_prefix_of_uint_append (Pos.to_uint p) rest Hrest) Hnil)
      as Hdigits.
    rewrite Unsigned.of_to in Hdigits.
    destruct (Pos.to_uint p) eqn:E; try contradiction; rewrite <- E in *;
      rewrite Hpos, Hhex, Hdigits; reflexivity.
  - cbn [NilZero.string_of_int]. unfold NilZero.string_of_uint.
    pose proof (Unsigned.to_uint_nonnil p) as Hnil.
    pose proof (to_uint_not_D0 p) as Hnz.
    destruct (numeral_body (Pos.to_uint p) rest Hnil Hnz) as (_ & Hneg & Hhex).
    pose proof (proj2 (digits_prefix_of_uint_append (Pos.to_uint p) rest Hrest) Hnil)
      as Hdigits.
    rewrite Unsigned.of_to in Hdigits.
    destruct (Pos.to_uint p) eqn:E; try contradiction; rewrite <- E in *;
      rewrite Hneg, Hhex, Hdigits; reflexivity.
Qed.

Section Numerals.
Context {toStr : NumberToString}.
Implicit Types (env : gmap string string) (name : string).

(** X17. What follows a numeral is ignored: a variable set to the decimal
    numeral of an integer [z] followed by text that does not begin with a
    decimal digit resolves to [z] when no bound is configured, as
    ["8080abc"] resolves to 8080. The one exception is what [parseInt]
    takes for a hexadecimal prefix: ["0"] followed by ["x"] or ["X"]. *)
Theorem text_after_numeral_is_ignored env name (z : Z) (rest : string) :
  env !! name = Some (decimal z +:+ rest) →
  leading_digits 10 rest = [] →
  (z = 0 → starts_with "x" rest || starts_with "X" rest = false) →
  run (EnvUtils.parseEnvAsNumber env (Some name) None)
    = (Return (Number_of_Z z), [])
  ∧ run (EnvUtils.parseEnvAsNumberOrNull env (Some name) None)
    = (Return (Some (Number_of_Z z)), [])
  ∧ (∀ d, run (Part000.parseEnvAsNumber env (Some name)
                 {| NumberOptions.defaultValue := d;
                    NumberOptions.max := None; NumberOptions.min := None |})
          = (Return (Number_of_Z z), [])).
Proof.
  intros Hpresent Hrest Hx.
  unfold EnvUtils.parseEnvAsNumber, EnvUtils.parseEnvAsNumberOrNull,
    Part000.parseEnvAsNumber, number_eq_null.
  eff_unfold. present Hpresent; rewrite (parseInt_decimal_append z rest Hrest Hx). simpl.
  rewrite Number_of_Z_isNaN. repeat split; reflexivity.
Qed.

(** X18. A construction reads five variables and no other: on two
    environments that agree on [SESSION_SECRET], [NODE_ENV], [PORT],
    [SERVER_HOST] and [FROM_EMAIL] each constructor gives the same result
    and the same entries. *)
Theorem constructor_reads_five_variables env env' defaults loggerLevel :
  env !! "SESSION_SECRET" = env' !! "SESSION_SECRET" →
  env !! "NODE_ENV" = env' !! "NODE_ENV" →
  env !! "PORT" = env' !! "PORT" →
  env !! "SERVER_HOST" = env' !! "SERVER_HOST" →
  env !! "FROM_EMAIL" = env' !! "FROM_EMAIL" →
  EnvUtilsClass.constructor env defaults loggerLevel
  = EnvUtilsClass.constructor env' defaults loggerLevel
  ∧ Part000Class.constructor env defaults loggerLevel
    = Part000Class.constructor env' defaults loggerLevel.
Proof.
  intros H1 H2 H3 H4 H5.
  unfold EnvUtilsClass.constructor, Part000Class.constructor,
    EnvUtils.parseEnvAsString, EnvUtils.parseEnvAsStringOrNull,
    EnvUtils.parseEnvAsNumber, EnvUtils.parseEnvAsNumberOrNull,
    Part000.parseEnvAsString, Part000.parseEnvAsNumber, Part000.handleDefault,
    process_env.
  rewrite H1, H2, H3, H4, H5. split; reflexivity.
Qed.

End Numerals.

(** [PORT] set to ["3000/tcp"]. *)
Lemma text_after_numeral_is_ignored_witness :
  ({[ "PORT" := "3000/tcp" ]} : gmap string string) !! "PORT"
    = Some (decimal 3000 +:+ "/tcp")
  ∧ leading_digits 10 "/tcp" = []
  ∧ run (EnvUtils.parseEnvAsNumber (toStr := integer_toString)
           {[ "PORT" := "3000/tcp" ]} (Some "PORT") None)
    = (Return (Number_of_Z 3000), []).
Proof.
  assert (H1 : ({[ "PORT" := "3000/tcp" ]} : gmap string string) !! "PORT"
               = Some (decimal 3000 +:+ "/tcp")) by apply lookup_singleton_eq.
  assert (H2 : leading_digits 10 "/tcp" = []) by reflexivity.
  split; [exact H1 | split; [exact H2 |]].
  destruct (text_after_numeral_is_ignored (toStr := integer_toString)
              _ "PORT" 3000 "/tcp" H1 H2 ltac:(discriminate)) as (Hw & _).
  exact Hw.
Defined.

(** The production environment with one more variable. *)
Lemma constructor_reads_five_variables_witness :
  EnvUtilsClass.constructor (toStr := integer_toString)
    production_env local_defaults None
  = EnvUtilsClass.constructor (toStr := integer_toString)
      (<["HOME" := "/root"]> production_env) local_defaults None.
Proof.
  apply (constructor_reads_five_variables (toStr := integer_toString)
           production_env (<["HOME" := "/root"]> production_env));
    reflexivity.
Defined.

(** The error for [PORT] set to ["99999"] with [max: 65535]. *)
Lemma numeric_errors_identify_name_witness :
  outcome (EnvUtils.parseEnvAsNumber (toStr := integer_toString)
             {[ "PORT" := "99999" ]} (Some "PORT")
             (Some {| NumberOptions.defaultValue := undefined;
                      NumberOptions.max := Some (Number_of_Z 65535);
                      NumberOptions.min := None |}))
    = Throw (new_Error "PORT value 99999 must be no greater than 65535")
  ∧ starts_with "PORT"
      (Error_message (new_Error "PORT value 99999 must be no greater than 65535"))
    = true.
Proof.
  assert (H1 : outcome (EnvUtils.parseEnvAsNumber (toStr := integer_toString)
                          {[ "PORT" := "99999" ]} (Some "PORT")
                          (Some {| NumberOptions.defaultValue := undefined;
                                   NumberOptions.max := Some (Number_of_Z 65535);
                                   NumberOptions.min := None |}))
               = Throw (new_Error "PORT value 99999 must be no greater than 65535"))
    by reflexivity.
  split; [exact H1 |].
  apply (numeric_errors_identify_name (toStr := integer_toString)
           {[ "PORT" := "99999" ]} "PORT"
           (Some {| NumberOptions.defaultValue := undefined;
                    NumberOptions.max := Some (Number_of_Z 65535);
                    NumberOptions.min := None |})
           {| NumberOptions.defaultValue := undefined;
              NumberOptions.max := None; NumberOptions.min := None |}).
  right. left. exact H1.
Defined.

(** The error for [SESSION_SECRET] absent. *)
Lemma string_errors_identify_name_witness :
  outcome (EnvUtils.parseEnvAsString ∅ (Some "SESSION_SECRET") None)
    = Throw (MissingRequiredVariable "SESSION_SECRET")
  ∧ (starts_with "SESSION_SECRET"
       (Error_message (MissingRequiredVariable "SESSION_SECRET")) = true
     ∨ ∃ valueStr allowed,
         process_env ∅ "SESSION_SECRET" = Some valueStr
         ∧ None ≫= StringOptions.allowed = Some allowed
         ∧ Set_has allowed valueStr = false
         ∧ MissingRequiredVariable "SESSION_SECRET" = InvalidValue (ToString valueStr)).
Proof.
  assert (H1 : outcome (EnvUtils.parseEnvAsString ∅ (Some "SESSION_SECRET") None)
               = Throw (MissingRequiredVariable "SESSION_SECRET")) by reflexivity.
  split; [exact H1 |].
  apply (string_errors_identify_name ∅ "SESSION_SECRET" None).
  right. left. exact H1.
Defined.
